(** * Persist-then-publish write path of the user and EPM microservices

    A shallow embedding of the Go services described in the repository:
    the user microservice (models, DynamoDB repository, Kafka producer,
    service layer) and the EPM microservice (policy and audit records).

    Go values are modelled as follows.
    - [string] is a Go string, that is a sequence of bytes.
    - An [error] result is [option error]; [None] is Go's [nil].
    - A pointer result is an [option]; [None] is the [nil] pointer.
    - A slice that may be [nil] is an [option (list _)].
    - The objects a service holds by reference (repository, producer,
      the process log) form a state that every method threads through. *)

From Stdlib Require Import Ascii String NArith.
From stdpp Require Import gmap strings list pretty.

Set Warnings "-register-all".
Local Open Scope string_scope.

(** ** Threading of state

    A Go method runs against the objects it reaches through its receiver.
    [State S A] is a computation over such a state returning an [A]. *)

Definition State (S A : Type) : Type := S -> S * A.

#[global] Instance State_ret {S : Type} : MRet (State S) :=
  fun A (a : A) s => (s, a).

#[global] Instance State_bind {S : Type} : MBind (State S) :=
  fun A B (k : A -> State S B) (m : State S A) s => let '(s', a) := m s in k a s'.

(** Runs the sequencing of a method body down to its calls. *)
Ltac run_state := unfold mbind, State_bind, mret, State_ret; cbn.

(** ** Go errors *)

Module errors.

(** The error values the services can see: [errors.New], an error
    reported by the AWS SDK (code and message), an error of the Kafka
    transport, and [fmt.Errorf] wrapping with the [%w] verb. *)
Inductive error : Type :=
| New (text : string)
| awserr (code message : string)
| transport (text : string)
| Errorf (prefix : string) (wrapped : error).

(** The [Error()] method. *)
Fixpoint Error (e : error) : string :=
  match e with
  | New text => text
  | awserr code message => code +:+ ": " +:+ message
  | transport text => text
  | Errorf prefix wrapped => prefix +:+ Error wrapped
  end.

End errors.
Export errors(error).

(** A [context.Context] is only passed along by the code. The model keeps
    which context a call was made with, so that an outcome may depend on
    it (deadline, cancellation). *)
Inductive Context : Type :=
| context_TODO
| request_Context (request : nat).

(** ** encoding/json

    [json.Marshal] of the structs of this repository: the struct tags give
    the member names, in declaration order. *)

Module json.

Inductive value : Type :=
| null
| str (s : string)
| array (elems : list value)
| object (members : list (string * value)).

Definition dquote : ascii := ascii_of_nat 34.
Definition backslash : ascii := ascii_of_nat 92.

Definition hex (n : N) : ascii :=
  nth (N.to_nat n)
    (list_ascii_of_string "0123456789abcdef") "0"%char.

Definition lit (c : ascii) : string := String c EmptyString.

(** One byte below [utf8.RuneSelf], as the encoder writes it with HTML
    escaping on (the default of [json.Marshal]). *)
Definition encode_ascii (b : ascii) : string :=
  let n := N_of_ascii b in
  if (n =? 34)%N || (n =? 92)%N then String backslash (lit b)
  else if (n =? 8)%N then String backslash "b"
  else if (n =? 12)%N then String backslash "f"
  else if (n =? 10)%N then String backslash "n"
  else if (n =? 13)%N then String backslash "r"
  else if (n =? 9)%N then String backslash "t"
  else if (n <? 32)%N || (n =? 38)%N || (n =? 60)%N || (n =? 62)%N
    then String backslash ("u00" +:+ String (hex (n / 16)) (lit (hex (n mod 16))))
  else lit b.

Definition between (lo hi : N) (b : ascii) : bool :=
  let n := N_of_ascii b in (lo <=? n)%N && (n <=? hi)%N.

Definition cont (b : ascii) : bool := between 128 191 b.

(** The well-formed two, three and four byte sequences of UTF-8. *)
Definition utf8_2 (b0 b1 : ascii) : bool :=
  between 194 223 b0 && cont b1.

Definition utf8_3 (b0 b1 b2 : ascii) : bool :=
  (between 224 224 b0 && between 160 191 b1
   || (between 225 236 b0 || between 238 239 b0) && cont b1
   || between 237 237 b0 && between 128 159 b1)
  && cont b2.

Definition utf8_4 (b0 b1 b2 b3 : ascii) : bool :=
  (between 240 240 b0 && between 144 191 b1
   || between 241 243 b0 && cont b1
   || between 244 244 b0 && between 128 143 b1)
  && cont b2 && cont b3.

Definition replacement : string := String backslash "ufffd".

(** The body of a string literal: ASCII is escaped by [encode_ascii], an
    invalid byte becomes the replacement character, U+2028 and U+2029
    are escaped, every other rune is copied. *)
Fixpoint encode_runes (src : string) : string :=
  match src with
  | EmptyString => EmptyString
  | String b0 r1 =>
    if (N_of_ascii b0 <? 128)%N then encode_ascii b0 +:+ encode_runes r1
    else
      match r1 with
      | String b1 r2 =>
        if utf8_2 b0 b1 then String b0 (String b1 (encode_runes r2))
        else
          match r2 with
          | String b2 r3 =>
            if utf8_3 b0 b1 b2 then
              (if between 226 226 b0 && between 128 128 b1 && between 168 169 b2
               then String backslash ("u202" +:+ lit (hex (N_of_ascii b2 mod 16)))
               else String b0 (String b1 (lit b2)))
              +:+ encode_runes r3
            else
              match r3 with
              | String b3 r4 =>
                if utf8_4 b0 b1 b2 b3
                then String b0 (String b1 (String b2 (String b3 (encode_runes r4))))
                else replacement +:+ encode_runes r1
              | EmptyString => replacement +:+ encode_runes r1
              end
          | EmptyString => replacement +:+ encode_runes r1
          end
      | EmptyString => replacement +:+ encode_runes r1
      end
  end.

Definition quote (s : string) : string :=
  String dquote (encode_runes s +:+ lit dquote).

Fixpoint encode (v : value) : string :=
  match v with
  | null => "null"
  | str s => quote s
  | array elems =>
    "[" +:+
    (fix items (first : bool) (l : list value) : string :=
       match l with
       | [] => EmptyString
       | x :: rest =>
         (if first then EmptyString else ",") +:+ encode x +:+ items false rest
       end) true elems
    +:+ "]"
  | object members =>
    "{" +:+
    (fix items (first : bool) (l : list (string * value)) : string :=
       match l with
       | [] => EmptyString
       | (k, x) :: rest =>
         (if first then EmptyString else ",")
         +:+ quote k +:+ ":" +:+ encode x +:+ items false rest
       end) true members
    +:+ "}"
  end.

(** A [string] field and a [[]string] field. *)
Definition of_string (s : string) : value := str s.

Definition of_strings (l : option (list string)) : value :=
  match l with
  | None => null
  | Some elems => array (map str elems)
  end.

End json.

(** ** The DynamoDB client of the AWS SDK

    A table has one partition key attribute of type string, which is the
    only kind of table the single-attribute, string-valued keys built by
    the repositories can address. Rows are items indexed by the value of
    that attribute. *)

Module dynamodb.

Inductive AttributeValue : Type :=
| AttrS (s : string)
| AttrN (n : string)
| AttrBOOL (b : bool)
| AttrNULL
| AttrL (elems : list AttributeValue).

Abbreviation Item := (gmap string AttributeValue).

Record Table : Type := mkTable {
  KeySchema : string;
  Items : gmap string Item
}.

Record PutItemInput : Type := { put_Item : Item; put_TableName : string }.
Record GetItemInput : Type := { get_TableName : string; get_Key : Item }.
Record DeleteItemInput : Type := { delete_TableName : string; delete_Key : Item }.

Inductive Request : Type :=
| PutItem (input : PutItemInput)
| GetItem (input : GetItemInput)
| DeleteItem (input : DeleteItemInput).

(** The service as the client sees it: [faults] tells for each request
    whether it fails before the table is touched (no connection, a
    cancelled context, throttling), [tables] is the durable content. *)
Record DynamoDB : Type := mkDB {
  faults : Context -> Request -> option error;
  tables : gmap string Table
}.

Definition ResourceNotFoundException : error :=
  errors.awserr "ResourceNotFoundException" "Requested resource not found".

Definition ValidationException : error :=
  errors.awserr "ValidationException"
    "The provided key element does not match the schema".

Definition MissingKeyException : error :=
  errors.awserr "ValidationException"
    "One or more parameter values were invalid: Missing the key in the item".

(** The row a key addresses: the key must consist of exactly the
    partition key attribute, holding a string. *)
Definition row_of_key (t : Table) (key : Item) : option string :=
  if decide (dom key = {[ KeySchema t ]}) then
    match key !! KeySchema t with
    | Some (AttrS k) => Some k
    | _ => None
    end
  else None.

(** The row an item is stored under: the item must carry the partition
    key attribute, holding a string. *)
Definition row_of_item (t : Table) (item : Item) : option string :=
  match item !! KeySchema t with
  | Some (AttrS k) => Some k
  | _ => None
  end.

Definition store (name : string) (t : Table) (rows : gmap string Item)
    (db : DynamoDB) : DynamoDB :=
  mkDB (faults db) (<[ name := mkTable (KeySchema t) rows ]> (tables db)).

(** [PutItemWithContext] without a condition expression: the item
    replaces whatever the row held. *)
Definition PutItemWithContext (ctx : Context) (input : PutItemInput)
    : State DynamoDB (option error) := fun db =>
  match faults db ctx (PutItem input) with
  | Some e => (db, Some e)
  | None =>
    match tables db !! put_TableName input with
    | None => (db, Some ResourceNotFoundException)
    | Some t =>
      match row_of_item t (put_Item input) with
      | None => (db, Some MissingKeyException)
      | Some k =>
        (store (put_TableName input) t (<[ k := put_Item input ]> (Items t)) db,
         None)
      end
    end
  end.

(** [GetItemWithContext]: the output's [Item] is [nil] when the row is
    absent. *)
Definition GetItemWithContext (ctx : Context) (input : GetItemInput)
    : State DynamoDB (option Item * option error) := fun db =>
  match faults db ctx (GetItem input) with
  | Some e => (db, (None, Some e))
  | None =>
    match tables db !! get_TableName input with
    | None => (db, (None, Some ResourceNotFoundException))
    | Some t =>
      match row_of_key t (get_Key input) with
      | None => (db, (None, Some ValidationException))
      | Some k => (db, (Items t !! k, None))
      end
    end
  end.

(** [DeleteItemWithContext] without a condition expression. *)
Definition DeleteItemWithContext (ctx : Context) (input : DeleteItemInput)
    : State DynamoDB (option error) := fun db =>
  match faults db ctx (DeleteItem input) with
  | Some e => (db, Some e)
  | None =>
    match tables db !! delete_TableName input with
    | None => (db, Some ResourceNotFoundException)
    | Some t =>
      match row_of_key t (delete_Key input) with
      | None => (db, Some ValidationException)
      | Some k =>
        (store (delete_TableName input) t (delete k (Items t)) db, None)
      end
    end
  end.

End dynamodb.

(** ** dynamodbattribute

    The encoder of the SDK (aws-sdk-go, service/dynamodb) in its default
    configuration, which is the one [MarshalMap] uses: with no
    [dynamodbav] tag on a field its [json] tag names the attribute
    ([SupportJSONTags]), and an empty string is written as [NULL]
    ([NullEmptyString]). The constructors of [AttributeValue] are the
    members [S], [N], [BOOL], [NULL] and [L] of the SDK's struct. *)

Module dynamodbattribute.
Import dynamodb.

Definition encodeString (s : string) : AttributeValue :=
  if decide (s = EmptyString) then AttrNULL else AttrS s.

Definition encodeStrings (l : option (list string)) : AttributeValue :=
  match l with
  | None => AttrNULL
  | Some elems => AttrL (map encodeString elems)
  end.

(** The first error among the values decoded, in order. *)
Fixpoint first_error (errs : list (option error)) : option error :=
  match errs with
  | [] => None
  | Some e :: _ => Some e
  | None :: rest => first_error rest
  end.

(** Decoding of the attribute values the encoder writes, into a
    [string] and into a [[]string]. *)
Definition decodeString (av : option AttributeValue) : string * option error :=
  match av with
  | None | Some AttrNULL => (EmptyString, None)
  | Some (AttrS s) => (s, None)
  | Some _ =>
    (EmptyString, Some (errors.New "dynamodbattribute: cannot unmarshal into string"))
  end.

Definition decodeStrings (av : option AttributeValue)
    : option (list string) * option error :=
  match av with
  | None | Some AttrNULL => (None, None)
  | Some (AttrL elems) =>
    (Some (map (fun e => fst (decodeString (Some e))) elems),
     first_error (map (fun e => snd (decodeString (Some e))) elems))
  | Some _ =>
    (None, Some (errors.New "dynamodbattribute: cannot unmarshal into slice"))
  end.

End dynamodbattribute.

(** ** The kafka-go writer *)

Module kafka_go.

Record Message : Type := { Key : string; Value : string }.

(** [calls] lists every message handed to [WriteMessages], [written]
    the ones the broker took; [broker] tells whether a write fails. The
    code passes [nil] for the context, so no context appears. *)
Record Writer : Type := mkWriter {
  Topic : string;
  broker : Message -> option error;
  calls : list Message;
  written : list Message
}.

Definition WriteMessages (msg : Message) : State Writer (option error) := fun w =>
  match broker w msg with
  | Some e => (mkWriter (Topic w) (broker w) (calls w ++ [msg]) (written w), Some e)
  | None =>
    (mkWriter (Topic w) (broker w) (calls w ++ [msg]) (written w ++ [msg]), None)
  end.

End kafka_go.

(** ** The standard logger *)

Module log.

(** [log.Printf] with the one format the code uses, a text followed by
    [%v] of an error. The lines written so far are the state. *)
Definition Printf (text : string) (err : error) : State (list string) unit :=
  fun lines => ((lines ++ [text +:+ errors.Error err])%list, tt).

End log.

(** ** The Kafka producer (internal/kafka/producer.go)

    The package is the same in both services up to the topic name. *)

Module kafka.

Record KafkaProducer : Type := { Writer : kafka_go.Writer }.

Definition NewKafkaProducer (topic : string)
    (broker : kafka_go.Message -> option error) : KafkaProducer :=
  {| Writer := kafka_go.mkWriter topic broker [] [] |}.

(** The producer runs against its writer and the standard logger. *)
Definition PublishEvent (key value : string)
    : State (KafkaProducer * list string) (option error) := fun '(p, lines) =>
  let '(w, err) :=
    kafka_go.WriteMessages {| kafka_go.Key := key; kafka_go.Value := value |}
      (Writer p) in
  match err with
  | Some e =>
    (({| Writer := w |}, fst (log.Printf "Failed to publish message: " e lines)),
     err)
  | None => (({| Writer := w |}, lines), err)
  end.

End kafka.

(** ** net/http, as far as the handlers use it

    The response writer is the recorder of [httptest]: [Code] is 200 until
    [WriteHeader] is called, and only the first call counts. [HeaderMap]
    holds the headers the code sets; the content type a server would
    detect for a body written without one is not modelled. *)

Module http.

Definition StatusOK : nat := 200.
Definition StatusCreated : nat := 201.
Definition StatusBadRequest : nat := 400.
Definition StatusNotFound : nat := 404.
Definition StatusInternalServerError : nat := 500.

Record ResponseRecorder : Type := mkRecorder {
  Code : nat;
  wroteHeader : bool;
  HeaderMap : gmap string string;
  Body : string
}.

Definition NewRecorder : ResponseRecorder :=
  mkRecorder StatusOK false ∅ EmptyString.

(** A request: its body, its context, and the URL parameters the router
    (chi) extracted from the path. *)
Record Request : Type := {
  req_Body : string;
  req_Context : Context;
  URLParams : gmap string string
}.

(** [chi.URLParam]: the empty string when the parameter is absent. *)
Definition URLParam (r : Request) (key : string) : string :=
  default EmptyString (URLParams r !! key).

Definition WriteHeader (code : nat) : State ResponseRecorder unit := fun w =>
  if wroteHeader w then (w, tt)
  else (mkRecorder code true (HeaderMap w) (Body w), tt).

Definition Write (b : string) : State ResponseRecorder unit := fun w =>
  let '(w1, _) := WriteHeader StatusOK w in
  (mkRecorder (Code w1) (wroteHeader w1) (HeaderMap w1) (Body w1 +:+ b), tt).

Definition Header_Set (key value : string) : State ResponseRecorder unit := fun w =>
  (mkRecorder (Code w) (wroteHeader w) (<[ key := value ]> (HeaderMap w)) (Body w), tt).

Definition Header_Del (key : string) : State ResponseRecorder unit := fun w =>
  (mkRecorder (Code w) (wroteHeader w) (delete key (HeaderMap w)) (Body w), tt).

Definition newline : string := String (ascii_of_nat 10) EmptyString.

(** [http.Error]: plain text headers, the status, the text and a line
    feed. *)
Definition Error (text : string) (code : nat) : State ResponseRecorder unit :=
  Header_Del "Content-Length" ;;
  Header_Set "Content-Type" "text/plain; charset=utf-8" ;;
  Header_Set "X-Content-Type-Options" "nosniff" ;;
  WriteHeader code ;;
  Write (text +:+ newline).

End http.

(** ** The user microservice *)

Module users.

Module models.

Record User : Type := mkUser {
  ID : string;          (* json:"id" *)
  Name : string;        (* json:"name" *)
  Email : string;       (* json:"email" *)
  Policies : option (list string)   (* json:"policies" *)
}.

(** The composite literal [models.User{ID: id}]. *)
Definition User_of_ID (id : string) : User :=
  mkUser id EmptyString EmptyString None.

(** What [json.Marshal] writes for a [User]. *)
Definition to_json (u : User) : json.value :=
  json.object
    [ ("id", json.of_string (ID u));
      ("name", json.of_string (Name u));
      ("email", json.of_string (Email u));
      ("policies", json.of_strings (Policies u)) ].

Definition Marshal (u : User) : string * option error :=
  (json.encode (to_json u), None).

(** What [dynamodbattribute.MarshalMap] writes for a [User]. *)
Definition MarshalMap (u : User) : dynamodb.Item * option error :=
  (<[ "id" := dynamodbattribute.encodeString (ID u) ]>
   (<[ "name" := dynamodbattribute.encodeString (Name u) ]>
    (<[ "email" := dynamodbattribute.encodeString (Email u) ]>
     (<[ "policies" := dynamodbattribute.encodeStrings (Policies u) ]> ∅))),
   None).

(** A decoder for [dynamodbattribute.UnmarshalMap] into a [User]: the
    attributes are looked up under the tag names. *)
Definition UnmarshalMap (item : dynamodb.Item) : User * option error :=
  let '(id, e1) := dynamodbattribute.decodeString (item !! "id") in
  let '(name, e2) := dynamodbattribute.decodeString (item !! "name") in
  let '(email, e3) := dynamodbattribute.decodeString (item !! "email") in
  let '(policies, e4) := dynamodbattribute.decodeStrings (item !! "policies") in
  (mkUser id name email policies,
   dynamodbattribute.first_error [e1; e2; e3; e4]).

End models.
Export models(User).

Module repository.
Import dynamodb.

(** The interface [UserRepository], over the state [R] of whatever
    implements it. *)
Class UserRepository (R : Type) : Type := {
  CreateUser : Context -> User -> State R (option error);
  GetUser : Context -> string -> State R (option User * option error);
  UpdateUser : Context -> User -> State R (option error);
  DeleteUser : Context -> string -> State R (option error)
}.

Record DynamoUserRepository : Type := { db : DynamoDB }.

Definition with_db {A : Type} (m : State DynamoDB A)
    : State DynamoUserRepository A := fun r =>
  let '(d, a) := m (db r) in ({| db := d |}, a).

Definition Users : string := "Users".

Definition key_ID (id : string) : Item := {[ "ID" := AttrS id ]}.

Module Dynamo.
Section Dynamo.

(** [dynamodbattribute.UnmarshalMap] at type [User]. The methods
    below are defined for any decoder. *)
Variable UnmarshalMap : Item -> User * option error.

Definition CreateUser (ctx : Context) (user : User)
    : State DynamoUserRepository (option error) :=
  let '(av, err) := models.MarshalMap user in
  match err with
  | Some e => mret (Some e)
  | None =>
    let input := {| put_Item := av; put_TableName := Users |} in
    with_db (PutItemWithContext ctx input)
  end.

Definition GetUser (ctx : Context) (id : string)
    : State DynamoUserRepository (option User * option error) :=
  '(result, err) ←
    with_db (GetItemWithContext ctx
               {| get_TableName := Users; get_Key := key_ID id |});
  match err with
  | Some e => mret (None, Some e)
  | None =>
    match result with
    | None => mret (None, Some (errors.New "user not found"))
    | Some item =>
      let '(user, err) := UnmarshalMap item in
      mret (Some user, err)
    end
  end.

Definition UpdateUser (ctx : Context) (user : User)
    : State DynamoUserRepository (option error) :=
  CreateUser ctx user.

Definition DeleteUser (ctx : Context) (id : string)
    : State DynamoUserRepository (option error) :=
  with_db (DeleteItemWithContext ctx
             {| delete_TableName := Users; delete_Key := key_ID id |}).

End Dynamo.
End Dynamo.

(** [DynamoUserRepository] implements [UserRepository]. *)
Definition DynamoUserRepository_impl
    (UnmarshalMap : Item -> User * option error)
    : UserRepository DynamoUserRepository :=
  {| CreateUser := Dynamo.CreateUser;
     GetUser := Dynamo.GetUser UnmarshalMap;
     UpdateUser := Dynamo.UpdateUser;
     DeleteUser := Dynamo.DeleteUser |}.

End repository.

Module service.
Import repository.

(** What a [UserService] reaches: its repository, its producer, and
    the standard logger the producer writes to. *)
Record UserService (R : Type) : Type := mkService {
  repo : R;
  kafka : kafka.KafkaProducer;
  stderr : list string
}.
Arguments mkService {R} _ _ _.
Arguments repo {R} _.
Arguments kafka {R} _.
Arguments stderr {R} _.

Definition NewUserService {R : Type} (r : R) (k : kafka.KafkaProducer)
    : UserService R :=
  mkService r k [].

Section service.
Context {R : Type} `{UserRepository R}.

Definition on_repo {A : Type} (m : State R A) : State (UserService R) A :=
  fun s => let '(r, a) := m (repo s) in (mkService r (kafka s) (stderr s), a).

Definition on_kafka {A : Type} (m : State (kafka.KafkaProducer * list string) A)
    : State (UserService R) A :=
  fun s => let '((k, lines), a) := m (kafka s, stderr s) in
           (mkService (repo s) k lines, a).

Definition publishEvent (eventType : string) (user : User)
    : State (UserService R) unit :=
  let '(msg, _) := models.Marshal user in
  on_kafka (kafka.PublishEvent eventType msg) ;; mret tt.

Definition CreateUser (ctx : Context) (user : User)
    : State (UserService R) (option error) :=
  err ← on_repo (repository.CreateUser ctx user);
  match err with
  | None => publishEvent "create_user" user ;; mret err
  | Some _ => mret err
  end.

Definition GetUser (ctx : Context) (id : string)
    : State (UserService R) (option User * option error) :=
  on_repo (repository.GetUser ctx id).

Definition UpdateUser (ctx : Context) (user : User)
    : State (UserService R) (option error) :=
  err ← on_repo (repository.UpdateUser ctx user);
  match err with
  | None => publishEvent "update_user" user ;; mret err
  | Some _ => mret err
  end.

Definition DeleteUser (ctx : Context) (id : string)
    : State (UserService R) (option error) :=
  err ← on_repo (repository.DeleteUser ctx id);
  match err with
  | None => publishEvent "delete_user" (models.User_of_ID id) ;; mret err
  | Some _ => mret err
  end.

(** *** The three mutations, for statements about all of them *)

Inductive Mutation : Type :=
| Create (user : User)
| Update (user : User)
| Delete (id : string).

(** The repository call a mutation starts with. *)
Definition commit (ctx : Context) (m : Mutation) : State R (option error) :=
  match m with
  | Create user => repository.CreateUser ctx user
  | Update user => repository.UpdateUser ctx user
  | Delete id => repository.DeleteUser ctx id
  end.

(** The service method that performs it. *)
Definition perform (ctx : Context) (m : Mutation)
    : State (UserService R) (option error) :=
  match m with
  | Create user => CreateUser ctx user
  | Update user => UpdateUser ctx user
  | Delete id => DeleteUser ctx id
  end.

(** The event type literal of the method, and the [User] value it
    hands to [publishEvent]. *)
Definition event_type (m : Mutation) : string :=
  match m with
  | Create _ => "create_user"
  | Update _ => "update_user"
  | Delete _ => "delete_user"
  end.

Definition subject (m : Mutation) : User :=
  match m with
  | Create user | Update user => user
  | Delete id => models.User_of_ID id
  end.

(** The messages handed to the writer so far. *)
Definition published (s : UserService R) : list kafka_go.Message :=
  kafka_go.calls (kafka.Writer (kafka s)).

(** The messages a run of mutations hands to the writer, given the
    errors the mutations returned: one per mutation that returned nil,
    in the order of the run. *)
Fixpoint events_of (ms : list Mutation) (errs : list (option error))
    : list kafka_go.Message :=
  match ms, errs with
  | m :: ms', None :: errs' =>
    {| kafka_go.Key := event_type m;
       kafka_go.Value := json.encode (models.to_json (subject m)) |}
    :: events_of ms' errs'
  | _ :: ms', Some _ :: errs' => events_of ms' errs'
  | _, _ => []
  end.

End service.

End service.

Module handlers.
Import repository.

Section handlers.
Context {R : Type} `{UserRepository R}.

(** [json.NewDecoder(r.Body).Decode(&user)], for any decoder. *)
Variable Decode : string -> User * option error.

(** A handler runs against the service it holds and the response
    writer it is given. *)
Definition on_service {A : Type} (m : State (service.UserService R) A)
    : State (service.UserService R * http.ResponseRecorder) A :=
  fun '(s, w) => let '(s', a) := m s in ((s', w), a).

Definition on_writer {A : Type} (m : State http.ResponseRecorder A)
    : State (service.UserService R * http.ResponseRecorder) A :=
  fun '(s, w) => let '(w', a) := m w in ((s, w'), a).

Definition CreateUser (r : http.Request)
    : State (service.UserService R * http.ResponseRecorder) unit :=
  let '(user, err) := Decode (http.req_Body r) in
  match err with
  | Some e => on_writer (http.Error (errors.Error e) http.StatusBadRequest)
  | None =>
    err ← on_service (service.CreateUser (http.req_Context r) user);
    match err with
    | Some e => on_writer (http.Error (errors.Error e) http.StatusInternalServerError)
    | None => on_writer (http.WriteHeader http.StatusCreated)
    end
  end.

(** The body of GetUser is left out in the source. *)
Definition GetUser (r : http.Request)
    : State (service.UserService R * http.ResponseRecorder) unit :=
  mret tt.

End handlers.

End handlers.

End users.

(** ** The EPM microservice *)

Module epm.

Module models.

Record EPMPolicy : Type := mkPolicy {
  ID : string;       (* json:"id" *)
  Name : string;     (* json:"name" *)
  Rules : string     (* json:"rules" *)
}.

Record EPMAudit : Type := mkAudit {
  audit_ID : string;    (* ID, json:"id" *)
  PolicyID : string;    (* json:"policy_id" *)
  Timestamp : string;   (* json:"timestamp" *)
  Action : string;      (* json:"action" *)
  Status : string       (* json:"status" *)
}.

Definition policy_to_json (p : EPMPolicy) : json.value :=
  json.object
    [ ("id", json.of_string (ID p));
      ("name", json.of_string (Name p));
      ("rules", json.of_string (Rules p)) ].

Definition Marshal (p : EPMPolicy) : string * option error :=
  (json.encode (policy_to_json p), None).

Definition MarshalMap_policy (p : EPMPolicy) : dynamodb.Item * option error :=
  (<[ "id" := dynamodbattribute.encodeString (ID p) ]>
   (<[ "name" := dynamodbattribute.encodeString (Name p) ]>
    (<[ "rules" := dynamodbattribute.encodeString (Rules p) ]> ∅)),
   None).

Definition MarshalMap_audit (a : EPMAudit) : dynamodb.Item * option error :=
  (<[ "id" := dynamodbattribute.encodeString (audit_ID a) ]>
   (<[ "policy_id" := dynamodbattribute.encodeString (PolicyID a) ]>
    (<[ "timestamp" := dynamodbattribute.encodeString (Timestamp a) ]>
     (<[ "action" := dynamodbattribute.encodeString (Action a) ]>
      (<[ "status" := dynamodbattribute.encodeString (Status a) ]> ∅)))),
   None).

(** Decoders for [dynamodbattribute.UnmarshalMap] into the two record
    types: the attributes are looked up under the tag names. *)
Definition UnmarshalMap_policy (item : dynamodb.Item) : EPMPolicy * option error :=
  let '(id, e1) := dynamodbattribute.decodeString (item !! "id") in
  let '(name, e2) := dynamodbattribute.decodeString (item !! "name") in
  let '(rules, e3) := dynamodbattribute.decodeString (item !! "rules") in
  (mkPolicy id name rules, dynamodbattribute.first_error [e1; e2; e3]).

Definition UnmarshalMap_audit (item : dynamodb.Item) : EPMAudit * option error :=
  let '(id, e1) := dynamodbattribute.decodeString (item !! "id") in
  let '(policy, e2) := dynamodbattribute.decodeString (item !! "policy_id") in
  let '(timestamp, e3) := dynamodbattribute.decodeString (item !! "timestamp") in
  let '(action, e4) := dynamodbattribute.decodeString (item !! "action") in
  let '(status, e5) := dynamodbattribute.decodeString (item !! "status") in
  (mkAudit id policy timestamp action status,
   dynamodbattribute.first_error [e1; e2; e3; e4; e5]).

End models.
Export models(EPMPolicy, EPMAudit).

Module repository.
Import dynamodb.

(** The interface [DynamoDBRepository]. *)
Class DynamoDBRepository (R : Type) : Type := {
  SavePolicy : Context -> string -> EPMPolicy -> State R (option error);
  GetPolicy : Context -> string -> string -> State R (option EPMPolicy * option error);
  SaveAudit : Context -> string -> EPMAudit -> State R (option error);
  GetAudit : Context -> string -> string -> State R (option EPMAudit * option error)
}.

Record DynamoDBRepo : Type := { dynamoClient : DynamoDB }.

Definition with_client {A : Type} (m : State DynamoDB A) : State DynamoDBRepo A :=
  fun r => let '(d, a) := m (dynamoClient r) in ({| dynamoClient := d |}, a).

Definition key_id (id : string) : Item := {[ "id" := AttrS id ]}.

Module Dynamo.
Section Dynamo.

(** [dynamodbattribute.UnmarshalMap] at the two record types. *)
Variable UnmarshalMap_policy : Item -> EPMPolicy * option error.
Variable UnmarshalMap_audit : Item -> EPMAudit * option error.

Definition SavePolicy (ctx : Context) (tableName : string) (policy : EPMPolicy)
    : State DynamoDBRepo (option error) :=
  let '(item, err) := models.MarshalMap_policy policy in
  match err with
  | Some e => mret (Some (errors.Errorf "failed to marshal policy: " e))
  | None =>
    let input := {| put_Item := item; put_TableName := tableName |} in
    err ← with_client (PutItemWithContext ctx input);
    match err with
    | Some e => mret (Some (errors.Errorf "failed to save policy to DynamoDB: " e))
    | None => mret None
    end
  end.

Definition GetPolicy (ctx : Context) (tableName policyID : string)
    : State DynamoDBRepo (option EPMPolicy * option error) :=
  let input := {| get_TableName := tableName; get_Key := key_id policyID |} in
  '(result, err) ← with_client (GetItemWithContext ctx input);
  match err with
  | Some e =>
    mret (None, Some (errors.Errorf "failed to get policy from DynamoDB: " e))
  | None =>
    match result with
    | None =>
      mret (None,
            Some (errors.New ("policy with ID " +:+ policyID +:+ " not found")))
    | Some item =>
      let '(policy, err) := UnmarshalMap_policy item in
      match err with
      | Some e => mret (None, Some (errors.Errorf "failed to unmarshal policy: " e))
      | None => mret (Some policy, None)
      end
    end
  end.

Definition SaveAudit (ctx : Context) (tableName : string) (audit : EPMAudit)
    : State DynamoDBRepo (option error) :=
  let '(item, err) := models.MarshalMap_audit audit in
  match err with
  | Some e => mret (Some (errors.Errorf "failed to marshal audit: " e))
  | None =>
    let input := {| put_Item := item; put_TableName := tableName |} in
    err ← with_client (PutItemWithContext ctx input);
    match err with
    | Some e => mret (Some (errors.Errorf "failed to save audit to DynamoDB: " e))
    | None => mret None
    end
  end.

Definition GetAudit (ctx : Context) (tableName auditID : string)
    : State DynamoDBRepo (option EPMAudit * option error) :=
  let input := {| get_TableName := tableName; get_Key := key_id auditID |} in
  '(result, err) ← with_client (GetItemWithContext ctx input);
  match err with
  | Some e =>
    mret (None, Some (errors.Errorf "failed to get audit from DynamoDB: " e))
  | None =>
    match result with
    | None =>
      mret (None,
            Some (errors.New ("audit with ID " +:+ auditID +:+ " not found")))
    | Some item =>
      let '(audit, err) := UnmarshalMap_audit item in
      match err with
      | Some e => mret (None, Some (errors.Errorf "failed to unmarshal audit: " e))
      | None => mret (Some audit, None)
      end
    end
  end.

End Dynamo.
End Dynamo.

(** [DynamoDBRepo] implements [DynamoDBRepository]. *)
Definition DynamoDBRepo_impl
    (UnmarshalMap_policy : Item -> EPMPolicy * option error)
    (UnmarshalMap_audit : Item -> EPMAudit * option error)
    : DynamoDBRepository DynamoDBRepo :=
  {| SavePolicy := Dynamo.SavePolicy;
     GetPolicy := Dynamo.GetPolicy UnmarshalMap_policy;
     SaveAudit := Dynamo.SaveAudit;
     GetAudit := Dynamo.GetAudit UnmarshalMap_audit |}.

End repository.

Module service.
Import repository.

Record EPMService (R : Type) : Type := mkService {
  repo : R;
  kafka : kafka.KafkaProducer;
  stderr : list string
}.
Arguments mkService {R} _ _ _.
Arguments repo {R} _.
Arguments kafka {R} _.
Arguments stderr {R} _.

Section service.
Context {R : Type} `{DynamoDBRepository R}.

Definition on_repo {A : Type} (m : State R A) : State (EPMService R) A :=
  fun s => let '(r, a) := m (repo s) in (mkService r (kafka s) (stderr s), a).

Definition on_kafka {A : Type} (m : State (kafka.KafkaProducer * list string) A)
    : State (EPMService R) A :=
  fun s => let '((k, lines), a) := m (kafka s, stderr s) in
           (mkService (repo s) k lines, a).

Definition on_log {A : Type} (m : State (list string) A) : State (EPMService R) A :=
  fun s => let '(lines, a) := m (stderr s) in (mkService (repo s) (kafka s) lines, a).

Definition publishEvent (eventType : string) (policy : EPMPolicy)
    : State (EPMService R) unit :=
  let '(msg, _) := models.Marshal policy in
  err ← on_kafka (kafka.PublishEvent eventType msg);
  match err with
  | Some e => on_log (log.Printf "Failed to publish Kafka event: " e)
  | None => mret tt
  end.

Definition CreatePolicy (ctx : Context) (tableName : string) (policy : EPMPolicy)
    : State (EPMService R) (option error) :=
  err ← on_repo (repository.SavePolicy ctx tableName policy);
  match err with
  | None => publishEvent "create_policy" policy ;; mret err
  | Some _ => mret err
  end.

Definition GetPolicy (ctx : Context) (tableName policyID : string)
    : State (EPMService R) (option EPMPolicy * option error) :=
  on_repo (repository.GetPolicy ctx tableName policyID).

Definition LogAudit (ctx : Context) (tableName : string) (audit : EPMAudit)
    : State (EPMService R) (option error) :=
  on_repo (repository.SaveAudit ctx tableName audit).

Definition published (s : EPMService R) : list kafka_go.Message :=
  kafka_go.calls (kafka.Writer (kafka s)).

End service.

End service.

Module handlers.
Import repository.

Section handlers.
Context {R : Type} `{DynamoDBRepository R}.

Definition on_service {A : Type} (m : State (service.EPMService R) A)
    : State (service.EPMService R * http.ResponseRecorder) A :=
  fun '(s, w) => let '(s', a) := m s in ((s', w), a).

Definition on_writer {A : Type} (m : State http.ResponseRecorder A)
    : State (service.EPMService R * http.ResponseRecorder) A :=
  fun '(s, w) => let '(w', a) := m w in ((s, w'), a).

(** [json.NewEncoder(w).Encode(policy)] for a pointer to a policy: the
    JSON value, [null] for the [nil] pointer, and a line feed. *)
Definition Encode (policy : option EPMPolicy) : State http.ResponseRecorder unit :=
  http.Write
    (match policy with
     | Some p => json.encode (models.policy_to_json p)
     | None => json.encode json.null
     end +:+ http.newline).

Definition GetPolicy (r : http.Request)
    : State (service.EPMService R * http.ResponseRecorder) unit :=
  let bucket := "epm-policies" in
  let key := "some_policy_id" in
  '(policy, err) ← on_service (service.GetPolicy (http.req_Context r) bucket key);
  match err with
  | Some e => on_writer (http.Error (errors.Error e) http.StatusNotFound)
  | None =>
    on_writer (http.Header_Set "Content-Type" "application/json") ;;
    on_writer (Encode policy)
  end.

End handlers.

End handlers.

End epm.

(** ** The book service (handler/getbook.go and its main package) *)

Module bookshop.

Record Book : Type := mkBook {
  ISBN : string;            (* json:"isbn" *)
  Name : string;            (* json:"name" *)
  Image : string;           (* json:"image" *)
  Genre : string;           (* json:"genre" *)
  YearPublished : N         (* uint16, json:"year_published" *)
}.

Record jsonError : Type := {
  Code : string;       (* json:"code" *)
  Message : string     (* json:"message" *)
}.

Definition Marshal_jsonError (e : jsonError) : string :=
  json.encode
    (json.object [ ("code", json.str (Code e)); ("message", json.str (Message e)) ]).

(** [json.Marshal] of a book: four strings and a number in decimal. *)
Definition Marshal_Book (b : Book) : string :=
  "{" +:+ json.quote "isbn" +:+ ":" +:+ json.quote (ISBN b)
  +:+ "," +:+ json.quote "name" +:+ ":" +:+ json.quote (Name b)
  +:+ "," +:+ json.quote "image" +:+ ":" +:+ json.quote (Image b)
  +:+ "," +:+ json.quote "genre" +:+ ":" +:+ json.quote (Genre b)
  +:+ "," +:+ json.quote "year_published" +:+ ":" +:+ pretty (YearPublished b)
  +:+ "}".

Module handler.

Definition ErrBookNotFound : error := errors.New "book not found".

(** The interface [BookRetriever]. *)
Class BookRetriever (B : Type) : Type := {
  GetBook : string -> State B (Book * option error)
}.

(** [GetBookHandler] is a struct without fields. *)
Inductive GetBookHandler : Type := mkGetBookHandler.

Definition ServeHTTP (g : GetBookHandler) (r : http.Request)
    : State http.ResponseRecorder unit :=
  let isbn := http.URLParam r "isbn" in
  let bookError := {| Code := "001"; Message := "no book with ISBN " +:+ isbn |} in
  let body := Marshal_jsonError bookError in
  http.WriteHeader http.StatusNotFound ;;
  http.Write body.

Definition NewGetBook {B : Type} `{BookRetriever B} (br : B) : GetBookHandler :=
  mkGetBookHandler.

End handler.

Module main.

(** The database as the route sees it: for an ISBN, what [QueryRow]
    followed by [Scan] leaves in the book and the error it returns. *)
Record DB : Type := { QueryRow_Scan : string -> Book * option error }.

(** The route [/book/{isbn}]. *)
Definition get_book (db : DB) (r : http.Request) : State http.ResponseRecorder unit :=
  let isbn := http.URLParam r "isbn" in
  let '(book, err) := QueryRow_Scan db isbn in
  match err with
  | Some _ =>
    let bookError := {| Code := "001"; Message := "no book with ISBN " +:+ isbn |} in
    let body := Marshal_jsonError bookError in
    http.WriteHeader http.StatusNotFound ;;
    http.Write body
  | None =>
    let body := Marshal_Book book in
    http.WriteHeader http.StatusOK ;;
    http.Write body
  end.

End main.

End bookshop.

(** ** Concrete deployments

    Small deployments on which the statements below are evaluated. *)

Module scenario.
Import dynamodb.

Definition no_faults : Context -> Request -> option error := fun _ _ => None.

Definition unreachable : Context -> Request -> option error :=
  fun _ _ => Some (errors.awserr "RequestError" "send request failed").

(** A database with one empty table, under the given partition key. *)
Definition one_table (faults : Context -> Request -> option error)
    (name attr : string) : DynamoDB :=
  mkDB faults {[ name := mkTable attr ∅ ]}.

Definition broker_up : kafka_go.Message -> option error := fun _ => None.

Definition broker_down : kafka_go.Message -> option error :=
  fun _ => Some (errors.transport "dial tcp: connection refused").

Definition ann : users.models.User :=
  users.models.mkUser "1" "Ann" EmptyString None.

#[global] Instance dynamo_users
    : users.repository.UserRepository users.repository.DynamoUserRepository :=
  users.repository.DynamoUserRepository_impl users.models.UnmarshalMap.

#[global] Instance dynamo_epm
    : epm.repository.DynamoDBRepository epm.repository.DynamoDBRepo :=
  epm.repository.DynamoDBRepo_impl
    epm.models.UnmarshalMap_policy epm.models.UnmarshalMap_audit.

Definition admin : epm.models.EPMPolicy :=
  epm.models.mkPolicy "1" "Admin" "some_rules".

Definition audit1 : epm.models.EPMAudit :=
  epm.models.mkAudit "a1" "1" "2024-01-01T00:00:00Z" "apply" "ok".

(** The EPM service over one table keyed by [attr]. *)
Definition epm_service (faults : Context -> Request -> option error)
    (name attr : string) (broker : kafka_go.Message -> option error)
    : epm.service.EPMService epm.repository.DynamoDBRepo :=
  epm.service.mkService
    {| epm.repository.dynamoClient := one_table faults name attr |}
    (kafka.NewKafkaProducer "epm-events" broker) [].

(** A database with one table holding one row. *)
Definition one_row (faults : Context -> Request -> option error)
    (name attr row : string) (item : Item) : DynamoDB :=
  mkDB faults {[ name := mkTable attr {[ row := item ]} ]}.

(** The item of Ann with an attribute ID besides, as a writer other
    than this service would have to store it in a table keyed by ID. *)
Definition ann_with_ID : Item :=
  <[ "ID" := AttrS "1" ]> (fst (users.models.MarshalMap ann)).

Definition users_with_ann : DynamoDB :=
  one_row no_faults "Users" "ID" "1" ann_with_ID.

(** The user service over a [Users] table keyed by [attr]. *)
Definition user_service (faults : Context -> Request -> option error)
    (attr : string) (broker : kafka_go.Message -> option error)
    : users.service.UserService users.repository.DynamoUserRepository :=
  users.service.NewUserService
    {| users.repository.db := one_table faults "Users" attr |}
    (kafka.NewKafkaProducer "user-events" broker).

(** *** Requests *)

Definition zero_user : users.models.User :=
  users.models.mkUser EmptyString EmptyString EmptyString None.

(** A decoder of request bodies that knows one body, the JSON of Ann,
    and rejects every other. *)
Definition decode_ann (body : string) : users.models.User * option error :=
  if decide (body = json.encode (users.models.to_json ann)) then (ann, None)
  else (zero_user, Some (errors.New "unexpected end of JSON input")).

Definition post (body : string) : http.Request :=
  {| http.req_Body := body; http.req_Context := request_Context 1;
     http.URLParams := ∅ |}.

Definition get_isbn (isbn : string) : http.Request :=
  {| http.req_Body := EmptyString; http.req_Context := request_Context 2;
     http.URLParams := {[ "isbn" := isbn ]} |}.

(** *** Tables *)

Definition empty_table (attr : string) : Table := mkTable attr ∅.

Definition ann_table : Table := mkTable "ID" {[ "1" := ann_with_ID ]}.

Definition nameless : epm.models.EPMPolicy :=
  epm.models.mkPolicy EmptyString "Nameless" "none".

(** *** Books *)

Definition zero_book : bookshop.Book :=
  bookshop.mkBook EmptyString EmptyString EmptyString EmptyString 0.

Definition the_book : bookshop.Book :=
  bookshop.mkBook "987654321" "Akshay Shetty" "testing.jpg" "Action" 1980.

(** A database holding the one book. *)
Definition one_book : bookshop.main.DB :=
  {| bookshop.main.QueryRow_Scan := fun isbn =>
       if decide (isbn = "987654321") then (the_book, None)
       else (zero_book, Some (errors.New "sql: no rows in result set")) |}.

(** A book retriever over a shelf of books. *)
#[global] Instance shelf : bookshop.handler.BookRetriever (gmap string bookshop.Book) :=
  {| bookshop.handler.GetBook isbn := fun books =>
       (books,
        match books !! isbn with
        | Some book => (book, None)
        | None => (zero_book, Some bookshop.handler.ErrBookNotFound)
        end) |}.

Definition the_shelf : gmap string bookshop.Book := {[ "987654321" := the_book ]}.

End scenario.

(** * Properties of the user service, for any repository *)

Section UserService.
Import users users.service.
Context {R : Type} `{repository.UserRepository R}.

(** What [publishEvent] does: one call of the writer, with the event
    type as key and the JSON of the user as value; the repository is
    not touched. *)
Lemma publishEvent_published (eventType : string) (user : User) (s : UserService R) :
  published (fst (publishEvent eventType user s)) =
    (published s ++
     [ {| kafka_go.Key := eventType;
          kafka_go.Value := json.encode (models.to_json user) |} ])%list
  /\ repo (fst (publishEvent eventType user s)) = repo s.
Proof.
  unfold publishEvent, published, on_kafka, kafka.PublishEvent,
    kafka_go.WriteMessages.
  run_state.
  destruct (kafka_go.broker (kafka.Writer (kafka s)) _); cbn; split; reflexivity.
Qed.

(** The three mutating methods have one shape: the repository call,
    then [publishEvent] if and only if it returned [nil]; the error
    returned is the repository's. *)
Lemma perform_shape (ctx : Context) (m : Mutation) (s : UserService R) :
  perform ctx m s =
    let '(r, err) := commit ctx m (repo s) in
    let s1 := mkService r (kafka s) (stderr s) in
    match err with
    | None => (fst (publishEvent (event_type m) (subject m) s1), None)
    | Some e => (s1, Some e)
    end.
Proof.
  destruct m; cbn [perform commit event_type subject];
    unfold CreateUser, UpdateUser, DeleteUser, on_repo, mbind, State_bind,
      mret, State_ret;
    match goal with |- context [?f ctx ?x (repo s)] => destruct (f ctx x (repo s)) as [r [e|]] end;
    try reflexivity;
    match goal with |- context [publishEvent ?t ?u ?s1] => destruct (publishEvent t u s1) end;
    reflexivity.
Qed.

Lemma perform_failed (ctx : Context) (m : Mutation) (s : UserService R) (r : R) (e : error) :
  commit ctx m (repo s) = (r, Some e) ->
  perform ctx m s = (mkService r (kafka s) (stderr s), Some e).
Proof. intros Hc. rewrite perform_shape, Hc. reflexivity. Qed.

Lemma perform_committed (ctx : Context) (m : Mutation) (s : UserService R) (r : R) :
  commit ctx m (repo s) = (r, None) ->
  perform ctx m s =
    (fst (publishEvent (event_type m) (subject m) (mkService r (kafka s) (stderr s))),
     None).
Proof. intros Hc. rewrite perform_shape, Hc. reflexivity. Qed.

End UserService.

Section UserServiceClaims.
Import users users.service.
Context {R : Type} `{repository.UserRepository R}.

(** C1. For each of CreateUser, UpdateUser and DeleteUser: when the
    repository call of the commit phase returns an error, the service
    returns that same error, and neither the producer (so the list of
    messages handed to the writer) nor the log is touched: PublishEvent
    is not invoked. *)
Theorem commit_error_returned_nothing_published
    (ctx : Context) (m : Mutation) (s : UserService R) (r : R) (e : error) :
  commit ctx m (repo s) = (r, Some e) ->
  snd (perform ctx m s) = Some e
  /\ kafka (fst (perform ctx m s)) = kafka s
  /\ published (fst (perform ctx m s)) = published s
  /\ stderr (fst (perform ctx m s)) = stderr s.
Proof.
  intros Hc. rewrite (perform_failed _ _ _ _ _ Hc). cbn. auto.
Qed.

(** C2. For each of CreateUser, UpdateUser and DeleteUser: when the
    repository call of the commit phase returns nil, the service returns
    nil whatever the producer and its broker do, that is for every
    state [k] of the producer and every content of the log. *)
Theorem commit_success_reported_whatever_publish_does
    (ctx : Context) (m : Mutation) (s : UserService R) (r : R) :
  commit ctx m (repo s) = (r, None) ->
  forall (k : kafka.KafkaProducer) (lines : list string),
    snd (perform ctx m (mkService (repo s) k lines)) = None.
Proof.
  intros Hc k lines.
  rewrite (perform_committed ctx m (mkService (repo s) k lines) r Hc).
  reflexivity.
Qed.

(** C3, as amended. Every message a mutating method hands to the
    writer has as its key the event type literal of the method,
    create_user, update_user or delete_user according to the method. The
    key equals the id of the subject only when that id is itself this
    literal. The id of the subject is carried in the value, as the
    member id of the JSON of the user. *)
Theorem publish_key_is_event_type (ctx : Context) (m : Mutation) (s : UserService R) :
  exists new : list kafka_go.Message,
    published (fst (perform ctx m s)) = (published s ++ new)%list
    /\ Forall (fun msg =>
                 kafka_go.Key msg =
                   match m with
                   | Create _ => "create_user"
                   | Update _ => "update_user"
                   | Delete _ => "delete_user"
                   end
                 /\ (kafka_go.Key msg = models.ID (subject m) <->
                     models.ID (subject m) =
                       match m with
                       | Create _ => "create_user"
                       | Update _ => "update_user"
                       | Delete _ => "delete_user"
                       end)
                 /\ kafka_go.Value msg =
                      json.encode
                        (json.object
                           [ ("id", json.str (models.ID (subject m)));
                             ("name", json.of_string (models.Name (subject m)));
                             ("email", json.of_string (models.Email (subject m)));
                             ("policies", json.of_strings (models.Policies (subject m))) ]))
              new.
Proof.
  assert (Het : event_type m =
                match m with
                | Create _ => "create_user"
                | Update _ => "update_user"
                | Delete _ => "delete_user"
                end) by (destruct m; reflexivity).
  rewrite <- Het. rewrite perform_shape.
  destruct (commit ctx m (repo s)) as [r [e|]].
  - exists []. cbn. rewrite app_nil_r. split; [reflexivity | constructor].
  - destruct (publishEvent_published (event_type m) (subject m)
                (mkService r (kafka s) (stderr s))) as [Hp _].
    eexists. split; [exact Hp |].
    constructor; [| constructor]. cbn [kafka_go.Key kafka_go.Value].
    split; [reflexivity |]. split; [| reflexivity].
    split; intros Heq; symmetry; exact Heq.
Qed.

(** C4, as amended. After a successful commit, DeleteUser hands the
    writer one message whose value is the JSON of a User with only ID
    set: the members id, name, email and policies, the last three with
    the zero values (two empty strings and null). *)
Theorem DeleteUser_publishes_zero_valued_user
    (ctx : Context) (id : string) (s : UserService R) (r : R) :
  repository.DeleteUser ctx id (repo s) = (r, None) ->
  published (fst (DeleteUser ctx id s)) =
    (published s ++
     [ {| kafka_go.Key := "delete_user";
          kafka_go.Value :=
            json.encode
              (json.object
                 [ ("id", json.str id);
                   ("name", json.str EmptyString);
                   ("email", json.str EmptyString);
                   ("policies", json.null) ]) |} ])%list.
Proof.
  intros Hc.
  change (DeleteUser ctx id s) with (perform ctx (Delete id) s).
  rewrite (perform_committed ctx (Delete id) s r Hc).
  exact (proj1 (publishEvent_published "delete_user" (models.User_of_ID id)
                  (mkService r (kafka s) (stderr s)))).
Qed.

(** C5, as amended. After a successful commit a mutating method hands
    the writer exactly one Kafka message: its key is the event type,
    one of create_user, update_user and delete_user according to the
    method, and its value is the JSON object of the user alone, with
    members id, name, email and policies (for DeleteUser, of the User
    with only ID set). *)
Theorem published_message_shape
    (ctx : Context) (m : Mutation) (s : UserService R) (r : R) :
  commit ctx m (repo s) = (r, None) ->
  published (fst (perform ctx m s)) =
    (published s ++
     [ {| kafka_go.Key := event_type m;
          kafka_go.Value :=
            json.encode
              (json.object
                 [ ("id", json.of_string (models.ID (subject m)));
                   ("name", json.of_string (models.Name (subject m)));
                   ("email", json.of_string (models.Email (subject m)));
                   ("policies", json.of_strings (models.Policies (subject m))) ]) |} ])%list
  /\ event_type m =
       match m with
       | Create _ => "create_user"
       | Update _ => "update_user"
       | Delete _ => "delete_user"
       end
  /\ subject m =
       match m with
       | Create user | Update user => user
       | Delete id => models.mkUser id EmptyString EmptyString None
       end.
Proof.
  intros Hc. rewrite (perform_committed ctx m s r Hc).
  split.
  - exact (proj1 (publishEvent_published (event_type m) (subject m)
                    (mkService r (kafka s) (stderr s)))).
  - destruct m; split; reflexivity.
Qed.

(** C9, first half. GetUser of the service is the repository's GetUser
    and nothing else: same result, the repository left as that call
    leaves it, producer and log untouched. *)
Lemma GetUser_is_repository_GetUser (ctx : Context) (id : string) (s : UserService R) :
  GetUser ctx id s =
    (mkService (fst (repository.GetUser ctx id (repo s))) (kafka s) (stderr s),
     snd (repository.GetUser ctx id (repo s))).
Proof.
  unfold GetUser, on_repo. destruct (repository.GetUser ctx id (repo s)). reflexivity.
Qed.

End UserServiceClaims.

(** * Properties of the DynamoDB repository of the user service *)

Section DynamoUserRepository.
Import dynamodb users users.repository.
Variable UnmarshalMap : Item -> User * option error.

Lemma row_of_key_ID (t : Table) (id : string) :
  KeySchema t = "ID" -> row_of_key t (key_ID id) = Some id.
Proof.
  intros Hk. unfold row_of_key, key_ID. rewrite Hk, dom_singleton_L.
  rewrite decide_True by reflexivity.
  rewrite lookup_singleton_eq. reflexivity.
Qed.

Lemma row_of_key_not_ID (t : Table) (id : string) :
  KeySchema t <> "ID" -> row_of_key t (key_ID id) = None.
Proof.
  intros Hk. unfold row_of_key, key_ID. rewrite dom_singleton_L.
  rewrite decide_False; [reflexivity |].
  intros Heq. apply Hk. symmetry. apply (singleton_inj (C := gset string)) in Heq.
  exact Heq.
Qed.

(** The item written for a user has the attributes named by the json
    tags, so none named ID. *)
Lemma MarshalMap_has_no_ID (user : User) :
  fst (models.MarshalMap user) !! "ID" = None.
Proof.
  cbn [models.MarshalMap fst].
  rewrite !lookup_insert_ne by discriminate. apply lookup_empty.
Qed.

Lemma row_of_item_ID (t : Table) (user : User) :
  KeySchema t = "ID" -> row_of_item t (fst (models.MarshalMap user)) = None.
Proof.
  intros Hk. unfold row_of_item. rewrite Hk, MarshalMap_has_no_ID. reflexivity.
Qed.

(** The outcomes of CreateUser: an error that leaves the repository
    as it was, or the item stored in a table whose key is not ID. *)
Lemma CreateUser_outcome (ctx : Context) (user : User) (r : DynamoUserRepository) :
  (exists e, Dynamo.CreateUser ctx user r = (r, Some e))
  \/ (exists t k,
        tables (db r) !! Users = Some t
        /\ KeySchema t <> "ID"
        /\ row_of_item t (fst (models.MarshalMap user)) = Some k
        /\ Dynamo.CreateUser ctx user r =
             ({| db := store Users t
                         (<[ k := fst (models.MarshalMap user) ]> (Items t)) (db r) |},
              None)).
Proof.
  destruct r as [d].
  unfold Dynamo.CreateUser, with_db, PutItemWithContext. cbn.
  destruct (faults d ctx _) as [e|]; [left; eexists; reflexivity |].
  destruct (tables d !! Users) as [t|] eqn:Ht; [| left; eexists; reflexivity].
  destruct (decide (KeySchema t = "ID")) as [Hk | Hk].
  - pose proof (row_of_item_ID t user Hk) as Hrow. cbn in Hrow. rewrite Hrow.
    left. eexists. reflexivity.
  - destruct (row_of_item t _) as [k|] eqn:Hrow; [| left; eexists; reflexivity].
    right. exists t, k. repeat split; assumption || reflexivity.
Qed.

(** GetUser never changes the repository. *)
Lemma GetUser_frame (ctx : Context) (id : string) (r : DynamoUserRepository) :
  fst (Dynamo.GetUser UnmarshalMap ctx id r) = r.
Proof.
  destruct r as [d].
  unfold Dynamo.GetUser, with_db, GetItemWithContext. run_state.
  destruct (faults d ctx _); [reflexivity |].
  destruct (tables d !! Users) as [t|]; [| reflexivity].
  destruct (row_of_key t _); [| reflexivity].
  destruct (Items t !! _); [| reflexivity].
  destruct (UnmarshalMap _). reflexivity.
Qed.

(** On a table whose key is not ID, GetUser returns an error and no
    record, whatever the table holds. *)
Lemma GetUser_key_mismatch (ctx : Context) (id : string) (r : DynamoUserRepository)
    (t : Table) :
  tables (db r) !! Users = Some t ->
  KeySchema t <> "ID" ->
  exists e, snd (Dynamo.GetUser UnmarshalMap ctx id r) = (None, Some e).
Proof.
  intros Ht Hk. destruct r as [d]. cbn in Ht.
  unfold Dynamo.GetUser, with_db, GetItemWithContext. run_state.
  destruct (faults d ctx _); [eexists; reflexivity |].
  rewrite Ht, (row_of_key_not_ID t id Hk). eexists; reflexivity.
Qed.

(** Whatever the key of the Users table, whatever the table holds and
    whatever the decoder: CreateUser fails, or the GetUser that follows
    it returns an error and no record. *)
Lemma CreateUser_then_GetUser_fails (ctx ctx' : Context) (user : User)
    (r : DynamoUserRepository) :
  is_Some (snd (Dynamo.CreateUser ctx user r))
  \/ exists e,
       snd (Dynamo.GetUser UnmarshalMap ctx' (models.ID user)
              (fst (Dynamo.CreateUser ctx user r))) = (None, Some e).
Proof.
  destruct (CreateUser_outcome ctx user r) as [[e He] | (t & k & Ht & Hk & _ & He)];
    rewrite He; cbn [fst snd].
  - left. eexists. reflexivity.
  - right.
    apply (GetUser_key_mismatch ctx' _ _
             (mkTable (KeySchema t) (<[ k := fst (models.MarshalMap user) ]> (Items t)))).
    + cbn. apply lookup_insert_eq.
    + exact Hk.
Qed.

(** The outcome of GetUser on a reachable table keyed by ID. *)
Lemma GetUser_outcome (ctx : Context) (id : string) (r : DynamoUserRepository)
    (t : Table) :
  tables (db r) !! Users = Some t ->
  KeySchema t = "ID" ->
  faults (db r) ctx (GetItem {| get_TableName := Users; get_Key := key_ID id |}) = None ->
  snd (Dynamo.GetUser UnmarshalMap ctx id r) =
    match Items t !! id with
    | None => (None, Some (errors.New "user not found"))
    | Some item => (Some (fst (UnmarshalMap item)), snd (UnmarshalMap item))
    end.
Proof.
  intros Ht Hk Hf. destruct r as [d]. cbn in Ht, Hf.
  unfold Dynamo.GetUser, with_db, GetItemWithContext. run_state. rewrite Hf, Ht, (row_of_key_ID t id Hk).
  destruct (Items t !! id); [| reflexivity].
  destruct (UnmarshalMap _). reflexivity.
Qed.

(** The outcome of DeleteUser on a reachable table keyed by ID. *)
Lemma DeleteUser_outcome (ctx : Context) (id : string) (r : DynamoUserRepository)
    (t : Table) :
  tables (db r) !! Users = Some t ->
  KeySchema t = "ID" ->
  faults (db r) ctx
    (DeleteItem {| delete_TableName := Users; delete_Key := key_ID id |}) = None ->
  Dynamo.DeleteUser ctx id r =
    ({| db := store Users t (delete id (Items t)) (db r) |}, None).
Proof.
  intros Ht Hk Hf. destruct r as [d]. cbn in Ht, Hf.
  unfold Dynamo.DeleteUser, with_db, DeleteItemWithContext. cbn.
  rewrite Hf, Ht, (row_of_key_ID t id Hk). reflexivity.
Qed.

End DynamoUserRepository.

Section DynamoUserRepositoryClaims.
Import dynamodb users users.repository.
Variable UnmarshalMap : Item -> User * option error.

(** On the one layout that the keys of DeleteUser and GetUser fit, a
    reachable Users table keyed by ID (on which CreateUser cannot store
    a user), for every id: DeleteUser succeeds, a second DeleteUser
    succeeds as well and changes nothing, and GetUser then fails with
    the error "user not found". If the record was absent from the
    start, the first DeleteUser changes nothing either. *)
Theorem DeleteUser_idempotent_then_not_found
    (ctx1 ctx2 ctx3 : Context) (id : string) (r : DynamoUserRepository) (t : Table) :
  tables (db r) !! Users = Some t ->
  KeySchema t = "ID" ->
  faults (db r) ctx1
    (DeleteItem {| delete_TableName := Users; delete_Key := key_ID id |}) = None ->
  faults (db r) ctx2
    (DeleteItem {| delete_TableName := Users; delete_Key := key_ID id |}) = None ->
  faults (db r) ctx3
    (GetItem {| get_TableName := Users; get_Key := key_ID id |}) = None ->
  exists r1 : DynamoUserRepository,
    Dynamo.DeleteUser ctx1 id r = (r1, None)
    /\ Dynamo.DeleteUser ctx2 id r1 = (r1, None)
    /\ Dynamo.GetUser UnmarshalMap ctx3 id r1 =
         (r1, (None, Some (errors.New "user not found")))
    /\ (Items t !! id = None -> r1 = r).
Proof.
  intros Ht Hk Hf1 Hf2 Hf3.
  set (t1 := mkTable (KeySchema t) (delete id (Items t))).
  set (r1 := {| db := store Users t (delete id (Items t)) (db r) |}).
  assert (Ht1 : tables (db r1) !! Users = Some t1) by apply lookup_insert_eq.
  exists r1. split; [| split; [| split]].
  - apply (DeleteUser_outcome ctx1 id r t Ht Hk Hf1).
  - rewrite (DeleteUser_outcome ctx2 id r1 t1 Ht1 Hk Hf2).
    unfold r1, store. cbn. rewrite delete_delete_eq, insert_insert_eq. reflexivity.
  - pose proof (GetUser_outcome UnmarshalMap ctx3 id r1 t1 Ht1 Hk Hf3) as Hres.
    pose proof (GetUser_frame UnmarshalMap ctx3 id r1) as Hfr.
    cbn [Items t1] in Hres. unfold t1 in Hres. cbn [Items] in Hres.
    rewrite lookup_delete_eq in Hres.
    destruct (Dynamo.GetUser UnmarshalMap ctx3 id r1) as [r' res].
    cbn in Hres, Hfr. subst. reflexivity.
  - intros Habs. unfold r1, store. destruct r as [[f tbls]]. destruct t as [ks rows].
    cbn in *. rewrite (delete_id rows id Habs), (insert_id tbls Users _ Ht).
    reflexivity.
Qed.

End DynamoUserRepositoryClaims.

(** C9. GetUser of the service is a pure read. For any repository it is
    the repository's GetUser and nothing else: the result is the
    repository's result, the producer (hence the list of messages handed
    to the writer) and the log are untouched. For the DynamoDB repository
    that call changes nothing in the store, so the whole service state is
    left as it was. *)
Theorem GetUser_is_a_pure_read :
  (forall (R : Type) (H : users.repository.UserRepository R)
          (ctx : Context) (id : string) (s : users.service.UserService R),
      snd (users.service.GetUser ctx id s)
        = snd (users.repository.GetUser ctx id (users.service.repo s))
      /\ users.service.repo (fst (users.service.GetUser ctx id s))
           = fst (users.repository.GetUser ctx id (users.service.repo s))
      /\ users.service.kafka (fst (users.service.GetUser ctx id s))
           = users.service.kafka s
      /\ users.service.stderr (fst (users.service.GetUser ctx id s))
           = users.service.stderr s)
  /\ (forall (UnmarshalMap : dynamodb.Item -> users.models.User * option error)
             (ctx : Context) (id : string)
             (s : users.service.UserService users.repository.DynamoUserRepository),
        fst (users.service.GetUser
               (H := users.repository.DynamoUserRepository_impl UnmarshalMap) ctx id s)
          = s).
Proof.
  split.
  - intros R H ctx id s. rewrite GetUser_is_repository_GetUser. cbn. auto.
  - intros dec ctx id s. rewrite GetUser_is_repository_GetUser. cbn.
    rewrite (GetUser_frame dec ctx id). destruct s. reflexivity.
Qed.

(** * Properties of the EPM service, for any repository *)

Section EPMService.
Import epm epm.service.
Context {R : Type} `{repository.DynamoDBRepository R}.

Lemma epm_publishEvent_published (eventType : string) (policy : EPMPolicy)
    (s : EPMService R) :
  published (fst (publishEvent eventType policy s)) =
    (published s ++
     [ {| kafka_go.Key := eventType;
          kafka_go.Value := json.encode (models.policy_to_json policy) |} ])%list
  /\ repo (fst (publishEvent eventType policy s)) = repo s.
Proof.
  unfold publishEvent, published, on_kafka, on_log, kafka.PublishEvent,
    kafka_go.WriteMessages, log.Printf.
  run_state.
  destruct (kafka_go.broker (kafka.Writer (kafka s)) _); cbn; split; reflexivity.
Qed.

Lemma LogAudit_is_SaveAudit (ctx : Context) (tableName : string) (audit : EPMAudit)
    (s : EPMService R) :
  LogAudit ctx tableName audit s =
    (mkService (fst (repository.SaveAudit ctx tableName audit (repo s)))
       (kafka s) (stderr s),
     snd (repository.SaveAudit ctx tableName audit (repo s))).
Proof.
  unfold LogAudit, on_repo.
  destruct (repository.SaveAudit ctx tableName audit (repo s)). reflexivity.
Qed.

Lemma CreatePolicy_committed (ctx : Context) (tableName : string) (policy : EPMPolicy)
    (s : EPMService R) (r : R) :
  repository.SavePolicy ctx tableName policy (repo s) = (r, None) ->
  CreatePolicy ctx tableName policy s =
    (fst (publishEvent "create_policy" policy (mkService r (kafka s) (stderr s))), None).
Proof.
  intros Hc. unfold CreatePolicy, on_repo, mbind, State_bind, mret, State_ret.
  rewrite Hc. destruct (publishEvent _ _ _). reflexivity.
Qed.

End EPMService.

(** * The statements on concrete deployments *)

Section Evaluation.
Import dynamodb scenario.
Import users users.repository users.service.

(** Encoding a user and decoding the item gives the user back: the
    attribute encoding itself loses nothing. *)
Lemma UnmarshalMap_MarshalMap (user : User) :
  models.UnmarshalMap (fst (models.MarshalMap user)) = (user, None).
Proof.
  assert (Hs : forall s, dynamodbattribute.decodeString
                           (Some (dynamodbattribute.encodeString s)) = (s, None)).
  { intros s. unfold dynamodbattribute.encodeString.
    destruct (decide (s = EmptyString)) as [-> | _]; reflexivity. }
  assert (Hl : forall l, dynamodbattribute.decodeStrings
                           (Some (dynamodbattribute.encodeStrings l)) = (l, None)).
  { intros [l|]; [| reflexivity].
    unfold dynamodbattribute.encodeStrings, dynamodbattribute.decodeStrings.
    f_equal.
    - f_equal. induction l as [|x l IH]; [reflexivity |].
      cbn [map]. rewrite Hs. cbn [fst]. f_equal. exact IH.
    - induction l as [|x l IH]; [reflexivity |].
      cbn [map dynamodbattribute.first_error]. rewrite Hs. exact IH. }
  destruct user as [id name email policies].
  unfold models.UnmarshalMap, models.MarshalMap. cbn [fst models.ID models.Name
    models.Email models.Policies].
  repeat (rewrite lookup_insert_eq || rewrite lookup_insert_ne by discriminate).
  rewrite !Hs, Hl. reflexivity.
Qed.

(** C7, at a user. On a reachable Users table keyed by id, the
    attribute CreateUser writes, CreateUser of Ann succeeds and stores
    her item under row 1, and GetUser of 1 then returns a validation
    error and no record. On a table keyed by ID, the attribute GetUser
    asks for, CreateUser itself fails. *)
Theorem CreateUser_then_GetUser_loses_the_user
    (UnmarshalMap : Item -> User * option error) :
  snd (Dynamo.CreateUser context_TODO ann {| db := one_table no_faults "Users" "id" |})
    = None
  /\ (tables (db (fst (Dynamo.CreateUser context_TODO ann
                         {| db := one_table no_faults "Users" "id" |}))) !! "Users"
        ≫= fun t => Items t !! "1")
       = Some (fst (models.MarshalMap ann))
  /\ snd (Dynamo.GetUser UnmarshalMap context_TODO "1"
            (fst (Dynamo.CreateUser context_TODO ann
                    {| db := one_table no_faults "Users" "id" |})))
       = (None, Some ValidationException)
  /\ snd (Dynamo.CreateUser context_TODO ann {| db := one_table no_faults "Users" "ID" |})
       = Some MissingKeyException.
Proof. repeat split; vm_compute; reflexivity. Qed.

(** C6, at a user. UpdateUser of the repository is CreateUser. On a
    reachable Users table keyed by id that has no row 1, UpdateUser of
    Ann succeeds and stores her item under row 1, yet GetUser of 1 then
    returns a validation error and no record; on a table keyed by ID,
    UpdateUser itself fails. *)
Theorem UpdateUser_upsert_is_not_readable
    (UnmarshalMap : Item -> User * option error) :
  (forall ctx user r, Dynamo.UpdateUser ctx user r = Dynamo.CreateUser ctx user r)
  /\ (tables (one_table no_faults "Users" "id") !! "Users" ≫= fun t => Items t !! "1")
       = None
  /\ snd (Dynamo.UpdateUser context_TODO ann {| db := one_table no_faults "Users" "id" |})
       = None
  /\ (tables (db (fst (Dynamo.UpdateUser context_TODO ann
                         {| db := one_table no_faults "Users" "id" |}))) !! "Users"
        ≫= fun t => Items t !! "1")
       = Some (fst (models.MarshalMap ann))
  /\ snd (Dynamo.GetUser UnmarshalMap context_TODO "1"
            (fst (Dynamo.UpdateUser context_TODO ann
                    {| db := one_table no_faults "Users" "id" |})))
       = (None, Some ValidationException)
  /\ snd (Dynamo.UpdateUser context_TODO ann {| db := one_table no_faults "Users" "ID" |})
       = Some MissingKeyException.
Proof. split; [reflexivity |]. repeat split; vm_compute; reflexivity. Qed.

End Evaluation.

Section Counterexamples.
Import dynamodb scenario.
Import users users.repository users.service.

(** C3 as stated fails. CreateUser of Ann (id 1) on a reachable store
    hands the writer a message whose key is create_user, not 1. *)
Lemma message_key_is_not_the_subject_id :
  ~ (forall msg : kafka_go.Message,
       In msg (published (fst (CreateUser context_TODO ann
                                 (user_service no_faults "id" broker_up)))) ->
       kafka_go.Key msg = models.ID ann).
Proof.
  intros Hall.
  specialize (Hall {| kafka_go.Key := "create_user";
                      kafka_go.Value := json.encode (models.to_json ann) |}).
  assert (Hkey : "create_user" = "1"); [| discriminate Hkey].
  apply Hall. vm_compute. left. reflexivity.
Qed.

(** C4 as stated fails. DeleteUser of the id missing on a reachable
    store hands the writer a message whose value has the members name,
    email and policies besides id, so it is not the object with the
    single member id. *)
Lemma tombstone_has_more_than_the_id :
  ~ (forall msg : kafka_go.Message,
       In msg (published (fst (DeleteUser context_TODO "missing"
                                 (user_service no_faults "ID" broker_up)))) ->
       kafka_go.Value msg = json.encode (json.object [ ("id", json.str "missing") ])).
Proof.
  intros Hall.
  specialize (Hall {| kafka_go.Key := "delete_user";
                      kafka_go.Value :=
                        json.encode (models.to_json (models.User_of_ID "missing")) |}).
  assert (Hval : json.encode (models.to_json (models.User_of_ID "missing"))
                 = json.encode (json.object [ ("id", json.str "missing") ])).
  { apply Hall. vm_compute. left. reflexivity. }
  vm_compute in Hval. discriminate Hval.
Qed.

(** C5 as stated fails. The message CreateUser of Ann hands the writer
    carries no event type among create, update and delete, and its
    value is not an object with the members event_type, subject_id and
    payload, whatever these would hold: the key is create_user and the
    value is the JSON of the user itself. *)
Lemma message_is_not_an_envelope :
  ~ (forall msg : kafka_go.Message,
       In msg (published (fst (CreateUser context_TODO ann
                                 (user_service no_faults "id" broker_up)))) ->
       In (kafka_go.Key msg) [ "create"; "update"; "delete" ]
       \/ exists (event_type subject_id : string) (payload : json.value),
            kafka_go.Value msg =
              json.encode
                (json.object
                   [ ("event_type", json.str event_type);
                     ("subject_id", json.str subject_id);
                     ("payload", payload) ])).
Proof.
  intros Hall.
  destruct (Hall {| kafka_go.Key := "create_user";
                    kafka_go.Value := json.encode (models.to_json ann) |})
    as [Hkey | (t & sid & payload & Hval)].
  - vm_compute. left. reflexivity.
  - cbn in Hkey. destruct Hkey as [Hk | [Hk | [Hk | []]]]; discriminate Hk.
  - cbn in Hval. discriminate Hval.
Qed.

End Counterexamples.

(** * The statements with hypotheses, at concrete inputs *)

Section Witnesses.
Import dynamodb scenario.

Lemma commit_error_returned_nothing_published_witness :
  users.service.commit context_TODO (users.service.Create ann)
    (users.service.repo (user_service unreachable "id" broker_up))
    = (users.service.repo (user_service unreachable "id" broker_up),
       Some (errors.awserr "RequestError" "send request failed"))
  /\ (snd (users.service.perform context_TODO (users.service.Create ann)
             (user_service unreachable "id" broker_up))
        = Some (errors.awserr "RequestError" "send request failed")
      /\ users.service.kafka
           (fst (users.service.perform context_TODO (users.service.Create ann)
                   (user_service unreachable "id" broker_up)))
           = users.service.kafka (user_service unreachable "id" broker_up)
      /\ users.service.published
           (fst (users.service.perform context_TODO (users.service.Create ann)
                   (user_service unreachable "id" broker_up)))
           = users.service.published (user_service unreachable "id" broker_up)
      /\ users.service.stderr
           (fst (users.service.perform context_TODO (users.service.Create ann)
                   (user_service unreachable "id" broker_up)))
           = users.service.stderr (user_service unreachable "id" broker_up)).
Proof.
  split; [reflexivity |].
  apply (commit_error_returned_nothing_published context_TODO
           (users.service.Create ann) (user_service unreachable "id" broker_up)
           (users.service.repo (user_service unreachable "id" broker_up))).
  reflexivity.
Defined.

Lemma commit_success_reported_whatever_publish_does_witness :
  users.service.commit context_TODO (users.service.Delete "missing")
    (users.service.repo (user_service no_faults "ID" broker_down))
    = (users.service.repo (user_service no_faults "ID" broker_down), None)
  /\ snd (users.service.perform context_TODO (users.service.Delete "missing")
            (user_service no_faults "ID" broker_down)) = None.
Proof.
  split; [vm_compute; reflexivity |].
  apply (commit_success_reported_whatever_publish_does context_TODO
           (users.service.Delete "missing") (user_service no_faults "ID" broker_down)
           (users.service.repo (user_service no_faults "ID" broker_down))).
  vm_compute; reflexivity.
Defined.

Lemma DeleteUser_publishes_zero_valued_user_witness :
  users.repository.DeleteUser context_TODO "missing"
    (users.service.repo (user_service no_faults "ID" broker_up))
    = (users.service.repo (user_service no_faults "ID" broker_up), None)
  /\ users.service.published
       (fst (users.service.DeleteUser context_TODO "missing"
               (user_service no_faults "ID" broker_up)))
     = [ {| kafka_go.Key := "delete_user";
            kafka_go.Value :=
              json.encode
                (json.object
                   [ ("id", json.str "missing");
                     ("name", json.str EmptyString);
                     ("email", json.str EmptyString);
                     ("policies", json.null) ]) |} ].
Proof.
  split; [vm_compute; reflexivity |].
  apply (DeleteUser_publishes_zero_valued_user context_TODO "missing"
           (user_service no_faults "ID" broker_up)
           (users.service.repo (user_service no_faults "ID" broker_up))).
  vm_compute; reflexivity.
Defined.

Lemma published_message_shape_witness :
  users.service.commit context_TODO (users.service.Update ann)
    (users.service.repo (user_service no_faults "id" broker_down))
    = ({| users.repository.db :=
            one_row no_faults "Users" "id" "1" (fst (users.models.MarshalMap ann)) |},
       None)
  /\ users.service.published
       (fst (users.service.perform context_TODO (users.service.Update ann)
               (user_service no_faults "id" broker_down)))
     = [ {| kafka_go.Key := "update_user";
            kafka_go.Value :=
              json.encode
                (json.object
                   [ ("id", json.str "1");
                     ("name", json.str "Ann");
                     ("email", json.str EmptyString);
                     ("policies", json.null) ]) |} ].
Proof.
  split; [vm_compute; reflexivity |].
  apply (published_message_shape context_TODO (users.service.Update ann)
           (user_service no_faults "id" broker_down)
           {| users.repository.db :=
                one_row no_faults "Users" "id" "1"
                  (fst (users.models.MarshalMap ann)) |}).
  vm_compute; reflexivity.
Defined.

Lemma DeleteUser_idempotent_then_not_found_witness :
  exists r1 : users.repository.DynamoUserRepository,
    users.repository.Dynamo.DeleteUser context_TODO "1"
      {| users.repository.db := users_with_ann |} = (r1, None)
    /\ users.repository.Dynamo.DeleteUser context_TODO "1" r1 = (r1, None)
    /\ users.repository.Dynamo.GetUser users.models.UnmarshalMap context_TODO "1" r1
         = (r1, (None, Some (errors.New "user not found")))
    /\ (Items (mkTable "ID" {[ "1" := ann_with_ID ]}) !! "1" = None ->
        r1 = {| users.repository.db := users_with_ann |}).
Proof.
  apply (DeleteUser_idempotent_then_not_found users.models.UnmarshalMap
           context_TODO context_TODO context_TODO "1"
           {| users.repository.db := users_with_ann |}
           (mkTable "ID" {[ "1" := ann_with_ID ]}));
    vm_compute; reflexivity.
Defined.

End Witnesses.


(** * Further properties of the user service, for any repository *)

(** One step of [mapM] in the state monad. *)
Lemma mapM_State_cons {S A B : Type} (f : A -> State S B) (a : A) (l : list A) (s : S) :
  mapM f (a :: l) s =
    let '(s1, x) := f a s in
    let '(s2, xs) := mapM f l s1 in
    (s2, x :: xs).
Proof.
  cbn [mapM]. unfold mbind at 1, State_bind at 1. destruct (f a s) as [s1 x].
  unfold mbind at 1, State_bind at 1. destruct (mapM f l s1) as [s2 xs]. reflexivity.
Qed.

Section UserServiceFurther.
Import users users.service.
Context {R : Type} `{repository.UserRepository R}.

(** What [publishEvent] leaves behind, by the answer of the broker. *)
Lemma publishEvent_effect (eventType : string) (user : User) (s : UserService R) :
  let msg := {| kafka_go.Key := eventType;
                kafka_go.Value := json.encode (models.to_json user) |} in
  let w := kafka.Writer (kafka s) in
  let s' := fst (publishEvent eventType user s) in
  repo s' = repo s
  /\ kafka_go.broker (kafka.Writer (kafka s')) = kafka_go.broker w
  /\ kafka_go.Topic (kafka.Writer (kafka s')) = kafka_go.Topic w
  /\ kafka_go.written (kafka.Writer (kafka s')) =
       (kafka_go.written w ++
        match kafka_go.broker w msg with Some _ => [] | None => [msg] end)%list
  /\ stderr s' =
       (stderr s ++
        match kafka_go.broker w msg with
        | Some e => [ "Failed to publish message: " +:+ errors.Error e ]
        | None => []
        end)%list.
Proof.
  unfold publishEvent, on_kafka, kafka.PublishEvent, kafka_go.WriteMessages, log.Printf.
  run_state.
  destruct (kafka_go.broker (kafka.Writer (kafka s)) _); cbn;
    rewrite ?app_nil_r; repeat split; reflexivity.
Qed.

(** X1. After a successful commit the outcome of the publication is kept in
    the process only: if the broker takes the message it joins the
    written ones and nothing is logged; if the broker refuses it with an
    error, nothing is written and exactly one line, "Failed to publish
    message: " followed by the error text, is logged. *)
Theorem publish_outcome_is_recorded
    (ctx : Context) (m : Mutation) (s : UserService R) (r : R) :
  commit ctx m (repo s) = (r, None) ->
  kafka_go.written (kafka.Writer (kafka (fst (perform ctx m s)))) =
    (kafka_go.written (kafka.Writer (kafka s)) ++
     match kafka_go.broker (kafka.Writer (kafka s))
             {| kafka_go.Key := event_type m;
                kafka_go.Value := json.encode (models.to_json (subject m)) |}
     with
     | Some _ => []
     | None => [ {| kafka_go.Key := event_type m;
                    kafka_go.Value := json.encode (models.to_json (subject m)) |} ]
     end)%list
  /\ stderr (fst (perform ctx m s)) =
       (stderr s ++
        match kafka_go.broker (kafka.Writer (kafka s))
                {| kafka_go.Key := event_type m;
                   kafka_go.Value := json.encode (models.to_json (subject m)) |}
        with
        | Some e => [ "Failed to publish message: " +:+ errors.Error e ]
        | None => []
        end)%list.
Proof.
  intros Hc. rewrite (perform_committed ctx m s r Hc). cbn [fst].
  destruct (publishEvent_effect (event_type m) (subject m)
              (mkService r (kafka s) (stderr s))) as (_ & _ & _ & Hw & Hl).
  split; [exact Hw | exact Hl].
Qed.

(** X2. A mutating method leaves the repository exactly as its repository
    call left it, whatever the broker answers: a failed publication is
    followed by no compensating call. *)
Theorem repository_left_as_committed (ctx : Context) (m : Mutation) (s : UserService R) :
  repo (fst (perform ctx m s)) = fst (commit ctx m (repo s)).
Proof.
  rewrite perform_shape. destruct (commit ctx m (repo s)) as [r [e|]]; cbn.
  - reflexivity.
  - exact (proj2 (publishEvent_published (event_type m) (subject m)
                    (mkService r (kafka s) (stderr s)))).
Qed.

(** X3. Mutations performed one after the other hand the writer one message
    for each mutation that returned nil, in the order they were
    performed, and none for a mutation that returned an error. *)
Theorem run_publishes_in_order (ctx : Context) (ms : list Mutation) (s : UserService R) :
  published (fst (mapM (perform ctx) ms s)) =
    (published s ++ events_of ms (snd (mapM (perform ctx) ms s)))%list
  /\ length (snd (mapM (perform ctx) ms s)) = length ms.
Proof.
  revert s. induction ms as [|m ms IH]; intros s.
  - cbn. rewrite app_nil_r. split; reflexivity.
  - rewrite mapM_State_cons.
    pose proof (perform_shape ctx m s) as Hshape.
    destruct (perform ctx m s) as [s1 err].
    destruct (IH s1) as [IHp IHl].
    destruct (mapM (perform ctx) ms s1) as [s2 errs].
    cbn [fst snd length] in IHp, IHl |- *.
    destruct (commit ctx m (repo s)) as [r [e|]]; injection Hshape as Hs1 Herr; subst err.
    + subst s1. cbn [events_of]. split; [exact IHp | now rewrite IHl].
    + assert (Hs1p : published s1 =
                (published s ++
                 [ {| kafka_go.Key := event_type m;
                      kafka_go.Value := json.encode (models.to_json (subject m)) |} ])%list).
      { rewrite Hs1.
        exact (proj1 (publishEvent_published (event_type m) (subject m)
                        (mkService r (kafka s) (stderr s)))). }
      cbn [events_of]. rewrite IHp, Hs1p, <- app_assoc.
      split; [reflexivity | now rewrite IHl].
Qed.

End UserServiceFurther.

(** * Further properties of the DynamoDB repository of the user service *)

Section DynamoUserRepositoryFurther.
Import dynamodb users users.repository.
Variable UnmarshalMap : Item -> User * option error.

(** The item written for a user holds the user's ID under the
    attribute id, unless the ID is empty. *)
Lemma MarshalMap_id (user : User) :
  fst (models.MarshalMap user) !! "id" =
    Some (if decide (models.ID user = EmptyString) then AttrNULL
          else AttrS (models.ID user)).
Proof. cbn [models.MarshalMap fst]. rewrite lookup_insert_eq. reflexivity. Qed.

(** X4. Whatever the partition key of the Users table, whatever the table
    holds, whatever the decoder and whatever the faults of the store: a
    user is never read back. CreateUser returns an error, or the GetUser
    of the user's ID that follows it returns an error and no user. *)
Theorem CreateUser_is_never_read_back
    (ctx ctx' : Context) (user : User) (r : DynamoUserRepository) :
  is_Some (snd (Dynamo.CreateUser ctx user r))
  \/ exists e,
       snd (Dynamo.GetUser UnmarshalMap ctx' (models.ID user)
              (fst (Dynamo.CreateUser ctx user r))) = (None, Some e).
Proof.
  destruct (CreateUser_then_GetUser_fails UnmarshalMap ctx ctx' user r) as [Hfail | Hget].
  - left. exact Hfail.
  - right. exact Hget.
Qed.

(** X5. On a Users table whose partition key is not ID, GetUser and
    DeleteUser can do nothing for any id: each returns an error (GetUser
    with no user) and leaves the repository as it was. *)
Theorem key_mismatch_blocks_reads_and_deletes
    (ctx : Context) (id : string) (r : DynamoUserRepository) (t : Table) :
  tables (db r) !! Users = Some t ->
  KeySchema t <> "ID" ->
  (exists e, Dynamo.GetUser UnmarshalMap ctx id r = (r, (None, Some e)))
  /\ (exists e, Dynamo.DeleteUser ctx id r = (r, Some e)).
Proof.
  intros Ht Hk. split.
  - destruct (GetUser_key_mismatch UnmarshalMap ctx id r t Ht Hk) as [e He].
    pose proof (GetUser_frame UnmarshalMap ctx id r) as Hfr.
    destruct (Dynamo.GetUser UnmarshalMap ctx id r) as [r' res].
    cbn in He, Hfr. subst. eexists. reflexivity.
  - destruct r as [d]. cbn in Ht.
    unfold Dynamo.DeleteUser, with_db, DeleteItemWithContext. cbn.
    destruct (faults d ctx _); [eexists; reflexivity |].
    rewrite Ht, (row_of_key_not_ID t id Hk). eexists; reflexivity.
Qed.

(** X6. On a reachable Users table keyed by id, CreateUser is an upsert
    keyed by the user's ID. With an empty ID it fails and changes
    nothing (the empty string is written as NULL, so the item has no
    key). Otherwise it succeeds whatever the row held before: afterwards
    the row holds the item of the user, and every other row and every
    other table is as before. *)
Theorem CreateUser_upserts_on_id_table
    (ctx : Context) (user : User) (r : DynamoUserRepository) (t : Table) :
  tables (db r) !! Users = Some t ->
  KeySchema t = "id" ->
  faults (db r) ctx
    (PutItem {| put_Item := fst (models.MarshalMap user); put_TableName := Users |})
    = None ->
  if decide (models.ID user = EmptyString)
  then Dynamo.CreateUser ctx user r = (r, Some MissingKeyException)
  else exists t',
      snd (Dynamo.CreateUser ctx user r) = None
      /\ tables (db (fst (Dynamo.CreateUser ctx user r))) !! Users = Some t'
      /\ KeySchema t' = "id"
      /\ Items t' !! models.ID user = Some (fst (models.MarshalMap user))
      /\ (forall k, k <> models.ID user -> Items t' !! k = Items t !! k)
      /\ (forall name, name <> Users ->
            tables (db (fst (Dynamo.CreateUser ctx user r))) !! name
              = tables (db r) !! name).
Proof.
  intros Ht Hk Hf. destruct r as [d]. cbn in Ht, Hf.
  pose proof (MarshalMap_id user) as Hid. cbn [models.MarshalMap fst] in Hid.
  unfold Dynamo.CreateUser, with_db, PutItemWithContext, row_of_item.
  cbn. rewrite Hf, Ht, Hk, Hid.
  destruct (decide (models.ID user = EmptyString)) as [He | Hne].
  - reflexivity.
  - eexists. cbn. split; [reflexivity |]. split; [apply lookup_insert_eq |].
    cbn. split; [exact Hk |]. split; [apply lookup_insert_eq |]. split.
    + intros k Hkne. apply lookup_insert_ne. congruence.
    + intros name Hname. apply lookup_insert_ne. congruence.
Qed.

(** X7. On a reachable Users table keyed by ID, GetUser answers "user not
    found", with no user, exactly when the row is absent. For a row that
    is present it returns a user that is not nil together with whatever
    error the decoder reports, so a user and an error can come back
    together. *)
Theorem GetUser_not_found_iff_absent
    (ctx : Context) (id : string) (r : DynamoUserRepository) (t : Table) :
  tables (db r) !! Users = Some t ->
  KeySchema t = "ID" ->
  faults (db r) ctx (GetItem {| get_TableName := Users; get_Key := key_ID id |}) = None ->
  (Items t !! id = None <->
   snd (Dynamo.GetUser UnmarshalMap ctx id r) = (None, Some (errors.New "user not found")))
  /\ (forall item, Items t !! id = Some item ->
        snd (Dynamo.GetUser UnmarshalMap ctx id r)
          = (Some (fst (UnmarshalMap item)), snd (UnmarshalMap item))).
Proof.
  intros Ht Hk Hf.
  rewrite (GetUser_outcome UnmarshalMap ctx id r t Ht Hk Hf).
  destruct (Items t !! id) as [item|]; split.
  - split; intros Habs; discriminate Habs.
  - intros item' Heq. injection Heq as <-. reflexivity.
  - split; reflexivity.
  - intros item' Heq. discriminate Heq.
Qed.

(** X8. On a reachable Users table keyed by ID, DeleteUser of one id does
    not change what GetUser returns for any other id. *)
Theorem DeleteUser_keeps_other_users
    (ctx ctx' : Context) (id id' : string) (r : DynamoUserRepository) (t : Table) :
  tables (db r) !! Users = Some t ->
  KeySchema t = "ID" ->
  faults (db r) ctx
    (DeleteItem {| delete_TableName := Users; delete_Key := key_ID id |}) = None ->
  faults (db r) ctx' (GetItem {| get_TableName := Users; get_Key := key_ID id' |}) = None ->
  id' <> id ->
  snd (Dynamo.DeleteUser ctx id r) = None
  /\ snd (Dynamo.GetUser UnmarshalMap ctx' id' (fst (Dynamo.DeleteUser ctx id r)))
       = snd (Dynamo.GetUser UnmarshalMap ctx' id' r).
Proof.
  intros Ht Hk Hfd Hfg Hne.
  rewrite (DeleteUser_outcome ctx id r t Ht Hk Hfd). cbn [fst snd].
  split; [reflexivity |].
  rewrite (GetUser_outcome UnmarshalMap ctx' id' r t Ht Hk Hfg).
  rewrite (GetUser_outcome UnmarshalMap ctx' id'
             {| db := store Users t (delete id (Items t)) (db r) |}
             (mkTable (KeySchema t) (delete id (Items t)))
             (lookup_insert_eq _ _ _) Hk Hfg).
  cbn [Items]. rewrite lookup_delete_ne by congruence. reflexivity.
Qed.

(** X9. When the store fails every request made with a context, the four
    methods return the error of the SDK itself, not wrapped, GetUser
    with no user, and the repository is left as it was. *)
Theorem store_error_is_returned_as_is
    (ctx : Context) (e : error) (user : User) (id : string) (r : DynamoUserRepository) :
  (forall req, faults (db r) ctx req = Some e) ->
  Dynamo.CreateUser ctx user r = (r, Some e)
  /\ Dynamo.UpdateUser ctx user r = (r, Some e)
  /\ Dynamo.DeleteUser ctx id r = (r, Some e)
  /\ Dynamo.GetUser UnmarshalMap ctx id r = (r, (None, Some e)).
Proof.
  intros Hf. destruct r as [d]. cbn in Hf.
  unfold Dynamo.UpdateUser, Dynamo.CreateUser, Dynamo.DeleteUser, Dynamo.GetUser,
    with_db, PutItemWithContext, DeleteItemWithContext, GetItemWithContext.
  run_state. rewrite !Hf. repeat split; reflexivity.
Qed.

End DynamoUserRepositoryFurther.

(** * Properties of the DynamoDB repository of the EPM service *)

Section DynamoDBRepo.
Import dynamodb epm epm.repository.
Variable UnmarshalMap_policy : Item -> EPMPolicy * option error.
Variable UnmarshalMap_audit : Item -> EPMAudit * option error.

Lemma row_of_key_singleton (t : Table) (attr k : string) :
  row_of_key t {[ attr := AttrS k ]} =
    if decide (KeySchema t = attr) then Some k else None.
Proof.
  unfold row_of_key. rewrite dom_singleton_L.
  destruct (decide (KeySchema t = attr)) as [-> | Hne].
  - rewrite decide_True by reflexivity. rewrite lookup_singleton_eq. reflexivity.
  - rewrite decide_False; [reflexivity |].
    intros Heq. apply Hne. symmetry. apply (singleton_inj (C := gset string)) in Heq.
    exact Heq.
Qed.

Lemma MarshalMap_policy_id (policy : EPMPolicy) :
  fst (models.MarshalMap_policy policy) !! "id" =
    Some (if decide (models.ID policy = EmptyString) then AttrNULL
          else AttrS (models.ID policy)).
Proof. cbn [models.MarshalMap_policy fst]. rewrite lookup_insert_eq. reflexivity. Qed.

Lemma MarshalMap_audit_id (audit : EPMAudit) :
  fst (models.MarshalMap_audit audit) !! "id" =
    Some (if decide (models.audit_ID audit = EmptyString) then AttrNULL
          else AttrS (models.audit_ID audit)).
Proof. cbn [models.MarshalMap_audit fst]. rewrite lookup_insert_eq. reflexivity. Qed.

(** The outcomes of SavePolicy: an error that leaves the repository as
    it was, or the item stored under the row its key attribute names. *)
Lemma SavePolicy_outcome (ctx : Context) (tableName : string) (policy : EPMPolicy)
    (r : DynamoDBRepo) :
  (exists e, Dynamo.SavePolicy ctx tableName policy r = (r, Some e))
  \/ (exists t k,
        tables (dynamoClient r) !! tableName = Some t
        /\ row_of_item t (fst (models.MarshalMap_policy policy)) = Some k
        /\ Dynamo.SavePolicy ctx tableName policy r =
             ({| dynamoClient :=
                   store tableName t
                     (<[ k := fst (models.MarshalMap_policy policy) ]> (Items t))
                     (dynamoClient r) |},
              None)).
Proof.
  destruct r as [d].
  unfold Dynamo.SavePolicy, with_client, PutItemWithContext. run_state.
  destruct (faults d ctx _) as [e|]; [left; eexists; reflexivity |].
  destruct (tables d !! tableName) as [t|] eqn:Ht; [| left; eexists; reflexivity].
  destruct (row_of_item t _) as [k|] eqn:Hrow; [| left; eexists; reflexivity].
  right. exists t, k. repeat split; assumption || reflexivity.
Qed.

(** The outcome of GetPolicy on a reachable table keyed by id. *)
Lemma GetPolicy_outcome (ctx : Context) (tableName id : string) (r : DynamoDBRepo)
    (t : Table) :
  tables (dynamoClient r) !! tableName = Some t ->
  KeySchema t = "id" ->
  faults (dynamoClient r) ctx
    (GetItem {| get_TableName := tableName; get_Key := key_id id |}) = None ->
  Dynamo.GetPolicy UnmarshalMap_policy ctx tableName id r =
    (r,
     match Items t !! id with
     | None => (None, Some (errors.New ("policy with ID " +:+ id +:+ " not found")))
     | Some item =>
       match snd (UnmarshalMap_policy item) with
       | Some e => (None, Some (errors.Errorf "failed to unmarshal policy: " e))
       | None => (Some (fst (UnmarshalMap_policy item)), None)
       end
     end).
Proof.
  intros Ht Hk Hf. destruct r as [d]. cbn in Ht, Hf.
  unfold Dynamo.GetPolicy, with_client, GetItemWithContext, key_id. run_state.
  unfold key_id in Hf. rewrite Hf, Ht, row_of_key_singleton, decide_True by exact Hk.
  destruct (Items t !! id); [| reflexivity].
  destruct (UnmarshalMap_policy _) as [p [e|]]; reflexivity.
Qed.

(** X10. SavePolicy followed by GetPolicy gives the policy back. On a
    reachable table keyed by id, for a policy with a non-empty ID and a
    decoder that inverts the encoding of this policy: SavePolicy
    succeeds whatever the row held before, and GetPolicy of the ID then
    returns the policy and no error. *)
Theorem SavePolicy_then_GetPolicy
    (ctx ctx' : Context) (tableName : string) (policy : EPMPolicy)
    (r : DynamoDBRepo) (t : Table) :
  tables (dynamoClient r) !! tableName = Some t ->
  KeySchema t = "id" ->
  models.ID policy <> EmptyString ->
  faults (dynamoClient r) ctx
    (PutItem {| put_Item := fst (models.MarshalMap_policy policy);
                put_TableName := tableName |}) = None ->
  faults (dynamoClient r) ctx'
    (GetItem {| get_TableName := tableName; get_Key := key_id (models.ID policy) |})
    = None ->
  UnmarshalMap_policy (fst (models.MarshalMap_policy policy)) = (policy, None) ->
  snd (Dynamo.SavePolicy ctx tableName policy r) = None
  /\ snd (Dynamo.GetPolicy UnmarshalMap_policy ctx' tableName (models.ID policy)
            (fst (Dynamo.SavePolicy ctx tableName policy r)))
       = (Some policy, None).
Proof.
  intros Ht Hk Hid Hfp Hfg Hdec.
  assert (Hsave : Dynamo.SavePolicy ctx tableName policy r =
            ({| dynamoClient :=
                  store tableName t
                    (<[ models.ID policy := fst (models.MarshalMap_policy policy) ]> (Items t))
                    (dynamoClient r) |}, None)).
  { destruct r as [d]. cbn in Ht, Hfp.
    pose proof (MarshalMap_policy_id policy) as Hattr.
    rewrite decide_False in Hattr by exact Hid.
    cbn [models.MarshalMap_policy fst] in Hattr, Hfp.
    unfold Dynamo.SavePolicy, with_client, PutItemWithContext, row_of_item. run_state.
    rewrite Hfp, Ht, Hk, Hattr. reflexivity. }
  rewrite Hsave. cbn [fst snd]. split; [reflexivity |].
  set (rows := <[ models.ID policy := fst (models.MarshalMap_policy policy) ]> (Items t)).
  rewrite (GetPolicy_outcome ctx' tableName (models.ID policy)
             {| dynamoClient := store tableName t rows (dynamoClient r) |}
             (mkTable (KeySchema t) rows)
             (lookup_insert_eq _ _ _) Hk Hfg).
  cbn [snd Items]. unfold rows. rewrite lookup_insert_eq, Hdec. reflexivity.
Qed.

(** The outcome of GetAudit on a reachable table keyed by id. *)
Lemma GetAudit_outcome (ctx : Context) (tableName id : string) (r : DynamoDBRepo)
    (t : Table) :
  tables (dynamoClient r) !! tableName = Some t ->
  KeySchema t = "id" ->
  faults (dynamoClient r) ctx
    (GetItem {| get_TableName := tableName; get_Key := key_id id |}) = None ->
  Dynamo.GetAudit UnmarshalMap_audit ctx tableName id r =
    (r,
     match Items t !! id with
     | None => (None, Some (errors.New ("audit with ID " +:+ id +:+ " not found")))
     | Some item =>
       match snd (UnmarshalMap_audit item) with
       | Some e => (None, Some (errors.Errorf "failed to unmarshal audit: " e))
       | None => (Some (fst (UnmarshalMap_audit item)), None)
       end
     end).
Proof.
  intros Ht Hk Hf. destruct r as [d]. cbn in Ht, Hf.
  unfold Dynamo.GetAudit, with_client, GetItemWithContext, key_id. run_state.
  unfold key_id in Hf. rewrite Hf, Ht, row_of_key_singleton, decide_True by exact Hk.
  destruct (Items t !! id); [| reflexivity].
  destruct (UnmarshalMap_audit _) as [p [e|]]; reflexivity.
Qed.

(** X11. SaveAudit followed by GetAudit gives the audit back, under the
    same conditions: a reachable table keyed by id, a non-empty ID, a
    decoder that inverts the encoding of this audit. *)
Theorem SaveAudit_then_GetAudit
    (ctx ctx' : Context) (tableName : string) (audit : EPMAudit)
    (r : DynamoDBRepo) (t : Table) :
  tables (dynamoClient r) !! tableName = Some t ->
  KeySchema t = "id" ->
  models.audit_ID audit <> EmptyString ->
  faults (dynamoClient r) ctx
    (PutItem {| put_Item := fst (models.MarshalMap_audit audit);
                put_TableName := tableName |}) = None ->
  faults (dynamoClient r) ctx'
    (GetItem {| get_TableName := tableName; get_Key := key_id (models.audit_ID audit) |})
    = None ->
  UnmarshalMap_audit (fst (models.MarshalMap_audit audit)) = (audit, None) ->
  snd (Dynamo.SaveAudit ctx tableName audit r) = None
  /\ snd (Dynamo.GetAudit UnmarshalMap_audit ctx' tableName (models.audit_ID audit)
            (fst (Dynamo.SaveAudit ctx tableName audit r)))
       = (Some audit, None).
Proof.
  intros Ht Hk Hid Hfp Hfg Hdec.
  set (rows := <[ models.audit_ID audit := fst (models.MarshalMap_audit audit) ]> (Items t)).
  assert (Hsave : Dynamo.SaveAudit ctx tableName audit r =
            ({| dynamoClient := store tableName t rows (dynamoClient r) |}, None)).
  { destruct r as [d]. cbn in Ht, Hfp.
    pose proof (MarshalMap_audit_id audit) as Hattr.
    rewrite decide_False in Hattr by exact Hid.
    cbn [models.MarshalMap_audit fst] in Hattr, Hfp.
    unfold Dynamo.SaveAudit, with_client, PutItemWithContext, row_of_item. run_state.
    rewrite Hfp, Ht, Hk, Hattr. reflexivity. }
  rewrite Hsave. cbn [fst snd]. split; [reflexivity |].
  rewrite (GetAudit_outcome ctx' tableName (models.audit_ID audit)
             {| dynamoClient := store tableName t rows (dynamoClient r) |}
             (mkTable (KeySchema t) rows)
             (lookup_insert_eq _ _ _) Hk Hfg).
  cbn [snd Items]. unfold rows. rewrite lookup_insert_eq, Hdec. reflexivity.
Qed.

(** X12. On a reachable table keyed by id, GetPolicy answers "policy with ID
    ... not found", naming the id asked for, exactly when the row is
    absent. *)
Theorem GetPolicy_not_found_iff_absent
    (ctx : Context) (tableName id : string) (r : DynamoDBRepo) (t : Table) :
  tables (dynamoClient r) !! tableName = Some t ->
  KeySchema t = "id" ->
  faults (dynamoClient r) ctx
    (GetItem {| get_TableName := tableName; get_Key := key_id id |}) = None ->
  (Items t !! id = None <->
   snd (Dynamo.GetPolicy UnmarshalMap_policy ctx tableName id r)
     = (None, Some (errors.New ("policy with ID " +:+ id +:+ " not found")))).
Proof.
  intros Ht Hk Hf. rewrite (GetPolicy_outcome ctx tableName id r t Ht Hk Hf). cbn [snd].
  destruct (Items t !! id) as [item|]; [| split; reflexivity].
  destruct (snd (UnmarshalMap_policy item)); split; intros Habs; discriminate Habs.
Qed.

(** X13. GetPolicy and GetAudit return either a record or an error, never
    both and never neither, and leave the repository as it was: for
    every table, every content, every decoder and every fault. *)
Theorem Get_returns_record_xor_error
    (ctx : Context) (tableName id : string) (r : DynamoDBRepo) :
  (fst (Dynamo.GetPolicy UnmarshalMap_policy ctx tableName id r) = r
   /\ (is_Some (fst (snd (Dynamo.GetPolicy UnmarshalMap_policy ctx tableName id r)))
       <-> snd (snd (Dynamo.GetPolicy UnmarshalMap_policy ctx tableName id r)) = None))
  /\ (fst (Dynamo.GetAudit UnmarshalMap_audit ctx tableName id r) = r
      /\ (is_Some (fst (snd (Dynamo.GetAudit UnmarshalMap_audit ctx tableName id r)))
          <-> snd (snd (Dynamo.GetAudit UnmarshalMap_audit ctx tableName id r)) = None)).
Proof.
  assert (Hno : forall (A : Type) (e : error),
            is_Some (@None A) <-> Some e = None).
  { intros A e. split; [intros [x Hx]; discriminate Hx | intros Hx; discriminate Hx]. }
  assert (Hyes : forall (A : Type) (a : A), is_Some (Some a) <-> @None error = None).
  { intros A a. split; [reflexivity | intros _; eexists; reflexivity]. }
  destruct r as [d]. split.
  - unfold Dynamo.GetPolicy, with_client, GetItemWithContext. run_state.
    destruct (faults d ctx _); [split; [reflexivity | apply Hno] |].
    destruct (tables d !! tableName) as [t|]; [| split; [reflexivity | apply Hno]].
    destruct (row_of_key t _); [| split; [reflexivity | apply Hno]].
    destruct (Items t !! _); [| split; [reflexivity | apply Hno]].
    destruct (UnmarshalMap_policy _) as [p [e|]];
      (split; [reflexivity | apply Hno || apply Hyes]).
  - unfold Dynamo.GetAudit, with_client, GetItemWithContext. run_state.
    destruct (faults d ctx _); [split; [reflexivity | apply Hno] |].
    destruct (tables d !! tableName) as [t|]; [| split; [reflexivity | apply Hno]].
    destruct (row_of_key t _); [| split; [reflexivity | apply Hno]].
    destruct (Items t !! _); [| split; [reflexivity | apply Hno]].
    destruct (UnmarshalMap_audit _) as [p [e|]];
      (split; [reflexivity | apply Hno || apply Hyes]).
Qed.

(** X14. SavePolicy of one policy does not change what GetPolicy returns for
    any other id of the same table, nor for any id of another table,
    whether SavePolicy succeeds or fails and whatever the tables are. *)
Theorem SavePolicy_keeps_other_policies
    (ctx ctx' : Context) (tableName tableName' : string) (policy : EPMPolicy)
    (id' : string) (r : DynamoDBRepo) :
  tableName' <> tableName \/ id' <> models.ID policy ->
  snd (Dynamo.GetPolicy UnmarshalMap_policy ctx' tableName' id'
         (fst (Dynamo.SavePolicy ctx tableName policy r)))
    = snd (Dynamo.GetPolicy UnmarshalMap_policy ctx' tableName' id' r).
Proof.
  intros Hother.
  destruct (SavePolicy_outcome ctx tableName policy r)
    as [[e He] | (t & k & Ht & Hrow & He)]; rewrite He; cbn [fst]; [reflexivity |].
  destruct r as [d]. cbn in Ht.
  unfold Dynamo.GetPolicy, with_client, GetItemWithContext, store, key_id. run_state.
  destruct (faults d ctx' _); [reflexivity |].
  destruct (decide (tableName' = tableName)) as [-> | Hne].
  - rewrite lookup_insert_eq, Ht. cbn.
    rewrite !row_of_key_singleton. cbn.
    destruct (decide (KeySchema t = "id")) as [Hk | Hk]; [| reflexivity].
    assert (Hkey : k = models.ID policy).
    { unfold row_of_item in Hrow. rewrite Hk, MarshalMap_policy_id in Hrow.
      destruct (decide (models.ID policy = EmptyString)); [discriminate Hrow |].
      injection Hrow as <-. reflexivity. }
    subst k. destruct Hother as [Habs | Hid]; [contradiction |].
    cbn. rewrite lookup_insert_ne by congruence.
    destruct (Items t !! id'); [| reflexivity].
    destruct (UnmarshalMap_policy _) as [p [e|]]; reflexivity.
  - rewrite lookup_insert_ne by congruence.
    destruct (tables d !! tableName') as [t'|]; [| reflexivity].
    cbn. destruct (row_of_key t' _); [| reflexivity].
    destruct (Items t' !! _); [| reflexivity].
    destruct (UnmarshalMap_policy _) as [p [e|]]; reflexivity.
Qed.

(** X15. On a reachable table keyed by id, SavePolicy of a policy with an
    empty ID fails and changes nothing: the empty ID is written as NULL,
    so the item carries no key, and the error of the store comes back
    wrapped as "failed to save policy to DynamoDB: ...". *)
Theorem SavePolicy_rejects_empty_ID
    (ctx : Context) (tableName : string) (policy : EPMPolicy)
    (r : DynamoDBRepo) (t : Table) :
  tables (dynamoClient r) !! tableName = Some t ->
  KeySchema t = "id" ->
  models.ID policy = EmptyString ->
  faults (dynamoClient r) ctx
    (PutItem {| put_Item := fst (models.MarshalMap_policy policy);
                put_TableName := tableName |}) = None ->
  Dynamo.SavePolicy ctx tableName policy r =
    (r, Some (errors.Errorf "failed to save policy to DynamoDB: " MissingKeyException)).
Proof.
  intros Ht Hk Hid Hf. destruct r as [d]. cbn in Ht, Hf.
  pose proof (MarshalMap_policy_id policy) as Hattr.
  rewrite decide_True in Hattr by exact Hid.
  cbn [models.MarshalMap_policy fst] in Hattr, Hf.
  unfold Dynamo.SavePolicy, with_client, PutItemWithContext, row_of_item. run_state.
  rewrite Hf, Ht, Hk, Hattr. reflexivity.
Qed.

(** X16. When the store fails every request made with a context, each of
    the four methods returns the error of the SDK wrapped with its own
    prefix, the two readers with no record, and the repository is left
    as it was; the text of the returned error is the prefix followed by
    the text of the SDK's error. *)
Theorem store_error_is_wrapped
    (ctx : Context) (e : error) (tableName id : string)
    (policy : EPMPolicy) (audit : EPMAudit) (r : DynamoDBRepo) :
  (forall req, faults (dynamoClient r) ctx req = Some e) ->
  Dynamo.SavePolicy ctx tableName policy r
    = (r, Some (errors.Errorf "failed to save policy to DynamoDB: " e))
  /\ Dynamo.SaveAudit ctx tableName audit r
       = (r, Some (errors.Errorf "failed to save audit to DynamoDB: " e))
  /\ Dynamo.GetPolicy UnmarshalMap_policy ctx tableName id r
       = (r, (None, Some (errors.Errorf "failed to get policy from DynamoDB: " e)))
  /\ Dynamo.GetAudit UnmarshalMap_audit ctx tableName id r
       = (r, (None, Some (errors.Errorf "failed to get audit from DynamoDB: " e)))
  /\ errors.Error (errors.Errorf "failed to save policy to DynamoDB: " e)
       = "failed to save policy to DynamoDB: " +:+ errors.Error e.
Proof.
  intros Hf. destruct r as [d]. cbn in Hf.
  unfold Dynamo.SavePolicy, Dynamo.SaveAudit, Dynamo.GetPolicy, Dynamo.GetAudit,
    with_client, PutItemWithContext, GetItemWithContext.
  run_state. rewrite !Hf. repeat split; reflexivity.
Qed.

End DynamoDBRepo.

(** * Further properties of the EPM service, for any repository *)

Section EPMServiceFurther.
Import epm epm.service.
Context {R : Type} `{repository.DynamoDBRepository R}.

(** X17. When SavePolicy returns an error, CreatePolicy returns that error,
    hands nothing to the writer and logs nothing. *)
Theorem CreatePolicy_commit_error
    (ctx : Context) (tableName : string) (policy : EPMPolicy) (s : EPMService R)
    (r : R) (e : error) :
  repository.SavePolicy ctx tableName policy (repo s) = (r, Some e) ->
  CreatePolicy ctx tableName policy s = (mkService r (kafka s) (stderr s), Some e).
Proof.
  intros Hc. unfold CreatePolicy, on_repo. run_state. rewrite Hc. reflexivity.
Qed.

(** X18. When SavePolicy returns nil, CreatePolicy returns nil and leaves the
    repository as SavePolicy left it, whatever the broker answers. If
    the broker takes the message, it joins the written ones and nothing
    is logged. If the broker refuses it, nothing is written and the
    failure is logged twice, first by the producer ("Failed to publish
    message: ...") and then by the service ("Failed to publish Kafka
    event: ..."). *)
Theorem CreatePolicy_publish_outcome
    (ctx : Context) (tableName : string) (policy : EPMPolicy) (s : EPMService R) (r : R) :
  repository.SavePolicy ctx tableName policy (repo s) = (r, None) ->
  snd (CreatePolicy ctx tableName policy s) = None
  /\ repo (fst (CreatePolicy ctx tableName policy s)) = r
  /\ kafka_go.written (kafka.Writer (kafka (fst (CreatePolicy ctx tableName policy s)))) =
       (kafka_go.written (kafka.Writer (kafka s)) ++
        match kafka_go.broker (kafka.Writer (kafka s))
                {| kafka_go.Key := "create_policy";
                   kafka_go.Value := json.encode (models.policy_to_json policy) |}
        with
        | Some _ => []
        | None => [ {| kafka_go.Key := "create_policy";
                       kafka_go.Value := json.encode (models.policy_to_json policy) |} ]
        end)%list
  /\ stderr (fst (CreatePolicy ctx tableName policy s)) =
       (stderr s ++
        match kafka_go.broker (kafka.Writer (kafka s))
                {| kafka_go.Key := "create_policy";
                   kafka_go.Value := json.encode (models.policy_to_json policy) |}
        with
        | Some e => [ "Failed to publish message: " +:+ errors.Error e;
                      "Failed to publish Kafka event: " +:+ errors.Error e ]
        | None => []
        end)%list.
Proof.
  intros Hc. rewrite (CreatePolicy_committed ctx tableName policy s r Hc). cbn [fst snd].
  unfold publishEvent, on_kafka, on_log, kafka.PublishEvent, kafka_go.WriteMessages,
    log.Printf.
  run_state.
  destruct (kafka_go.broker (kafka.Writer (kafka s)) _); cbn;
    rewrite ?app_nil_r, <- ?app_assoc; repeat split; reflexivity.
Qed.

End EPMServiceFurther.

(** * Properties of the HTTP handlers *)

Section Writer.

(** [http.Error] on a writer whose header is not written yet. *)
Lemma Error_effect (text : string) (code : nat) (w : http.ResponseRecorder) :
  http.wroteHeader w = false ->
  http.Code (fst (http.Error text code w)) = code
  /\ http.Body (fst (http.Error text code w)) = http.Body w +:+ text +:+ http.newline.
Proof.
  intros Hw. unfold http.Error, http.Header_Del, http.Header_Set, http.WriteHeader,
    http.Write.
  run_state. rewrite Hw. cbn. split; reflexivity.
Qed.

End Writer.

Section UserHandler.
Import users users.service.
Context {R : Type} `{repository.UserRepository R}.
Variable Decode : string -> User * option error.

(** The handler, step by step. *)
Lemma handlers_CreateUser_shape
    (req : http.Request) (s : UserService R) (w : http.ResponseRecorder) :
  handlers.CreateUser Decode req (s, w) =
    match snd (Decode (http.req_Body req)) with
    | Some e => ((s, fst (http.Error (errors.Error e) http.StatusBadRequest w)), tt)
    | None =>
      let out := perform (http.req_Context req)
                   (Create (fst (Decode (http.req_Body req)))) s in
      match snd out with
      | Some e =>
        ((fst out, fst (http.Error (errors.Error e) http.StatusInternalServerError w)), tt)
      | None => ((fst out, fst (http.WriteHeader http.StatusCreated w)), tt)
      end
    end.
Proof.
  unfold handlers.CreateUser, handlers.on_writer, handlers.on_service.
  destruct (Decode (http.req_Body req)) as [user [e|]]; cbn [fst snd].
  - destruct (http.Error _ _ w) as [w' []]. reflexivity.
  - unfold mbind, State_bind. cbn [perform].
    destruct (CreateUser (http.req_Context req) user s) as [s1 [e|]]; cbn [fst snd].
    + destruct (http.Error _ _ w) as [w' []]. reflexivity.
    + destruct (http.WriteHeader _ w) as [w' []]. reflexivity.
Qed.

(** X19. The status of CreateUser, for every request: 400 when the body does
    not decode; otherwise 500 when the repository call fails; otherwise
    201. Nothing else enters: in particular the status does not depend
    on the producer or its broker. *)
Theorem CreateUser_status
    (req : http.Request) (s : UserService R) (w : http.ResponseRecorder) :
  http.wroteHeader w = false ->
  http.Code (snd (fst (handlers.CreateUser Decode req (s, w)))) =
    match snd (Decode (http.req_Body req)) with
    | Some _ => http.StatusBadRequest
    | None =>
      match snd (repository.CreateUser (http.req_Context req)
                   (fst (Decode (http.req_Body req))) (repo s)) with
      | Some _ => http.StatusInternalServerError
      | None => http.StatusCreated
      end
    end.
Proof.
  intros Hw. rewrite handlers_CreateUser_shape.
  destruct (snd (Decode (http.req_Body req))) as [e|].
  - exact (proj1 (Error_effect (errors.Error e) http.StatusBadRequest w Hw)).
  - cbv zeta. rewrite perform_shape. cbn [commit].
    destruct (repository.CreateUser _ _ (repo s)) as [r [e|]]; cbn [fst snd].
    + exact (proj1 (Error_effect (errors.Error e) http.StatusInternalServerError w Hw)).
    + unfold http.WriteHeader. rewrite Hw. reflexivity.
Qed.

(** X20. A body that does not decode is answered 400 with the text of the
    decoder's error and a line feed, and the service is not called: the
    repository, the producer and the log are as before. *)
Theorem CreateUser_bad_request
    (req : http.Request) (s : UserService R) (w : http.ResponseRecorder) (e : error) :
  snd (Decode (http.req_Body req)) = Some e ->
  http.wroteHeader w = false ->
  fst (fst (handlers.CreateUser Decode req (s, w))) = s
  /\ http.Code (snd (fst (handlers.CreateUser Decode req (s, w)))) = http.StatusBadRequest
  /\ http.Body (snd (fst (handlers.CreateUser Decode req (s, w))))
       = http.Body w +:+ errors.Error e +:+ http.newline.
Proof.
  intros Hd Hw. rewrite handlers_CreateUser_shape, Hd. cbn [fst snd].
  destruct (Error_effect (errors.Error e) http.StatusBadRequest w Hw) as [Hc Hb].
  auto.
Qed.

(** X21. An error of the repository is answered 500 with the text of that
    error and a line feed, and nothing is handed to the writer. *)
Theorem CreateUser_repository_error
    (req : http.Request) (s : UserService R) (w : http.ResponseRecorder)
    (user : User) (r : R) (e : error) :
  Decode (http.req_Body req) = (user, None) ->
  repository.CreateUser (http.req_Context req) user (repo s) = (r, Some e) ->
  http.wroteHeader w = false ->
  fst (fst (handlers.CreateUser Decode req (s, w))) = mkService r (kafka s) (stderr s)
  /\ http.Code (snd (fst (handlers.CreateUser Decode req (s, w))))
       = http.StatusInternalServerError
  /\ http.Body (snd (fst (handlers.CreateUser Decode req (s, w))))
       = http.Body w +:+ errors.Error e +:+ http.newline.
Proof.
  intros Hd Hc Hw. rewrite handlers_CreateUser_shape, Hd. cbn [fst snd]. cbv zeta.
  rewrite (perform_failed (http.req_Context req) (Create user) s r e Hc). cbn [fst snd].
  destruct (Error_effect (errors.Error e) http.StatusInternalServerError w Hw) as [Hco Hb].
  auto.
Qed.

(** X22. A user that decodes and commits is answered 201 with nothing
    written to the body, and one create_user message is handed to the
    writer, whether or not the broker takes it. *)
Theorem CreateUser_created
    (req : http.Request) (s : UserService R) (w : http.ResponseRecorder)
    (user : User) (r : R) :
  Decode (http.req_Body req) = (user, None) ->
  repository.CreateUser (http.req_Context req) user (repo s) = (r, None) ->
  http.wroteHeader w = false ->
  http.Code (snd (fst (handlers.CreateUser Decode req (s, w)))) = http.StatusCreated
  /\ http.Body (snd (fst (handlers.CreateUser Decode req (s, w)))) = http.Body w
  /\ repo (fst (fst (handlers.CreateUser Decode req (s, w)))) = r
  /\ published (fst (fst (handlers.CreateUser Decode req (s, w)))) =
       (published s ++
        [ {| kafka_go.Key := "create_user";
             kafka_go.Value := json.encode (models.to_json user) |} ])%list.
Proof.
  intros Hd Hc Hw. rewrite handlers_CreateUser_shape, Hd. cbn [fst snd]. cbv zeta.
  rewrite (perform_committed (http.req_Context req) (Create user) s r Hc). cbn [fst snd].
  destruct (publishEvent_published "create_user" user (mkService r (kafka s) (stderr s)))
    as [Hp Hr].
  unfold http.WriteHeader. rewrite Hw. cbn [fst http.Code http.Body].
  repeat split; [exact Hr | exact Hp].
Qed.

End UserHandler.

Section EPMHandler.
Import epm epm.service.
Context {R : Type} `{repository.DynamoDBRepository R}.

(** X23. GetPolicy of the handler reads the policy some_policy_id of the
    table epm-policies, whatever the request. Every error of the
    repository, a failure of the store as much as an absent row, is
    answered 404 with the text of the error and a line feed. Without an
    error the answer is 200 with the content type application/json and
    the JSON of the policy (null for a nil policy) followed by a line
    feed. The producer and the log are never touched. *)
Theorem GetPolicy_answers
    (req : http.Request) (s : EPMService R) (w : http.ResponseRecorder) :
  http.wroteHeader w = false ->
  fst (fst (handlers.GetPolicy req (s, w))) =
    mkService
      (fst (repository.GetPolicy (http.req_Context req) "epm-policies" "some_policy_id"
              (repo s)))
      (kafka s) (stderr s)
  /\ match snd (repository.GetPolicy (http.req_Context req) "epm-policies"
                  "some_policy_id" (repo s)) with
     | (_, Some e) =>
       http.Code (snd (fst (handlers.GetPolicy req (s, w)))) = http.StatusNotFound
       /\ http.Body (snd (fst (handlers.GetPolicy req (s, w))))
            = http.Body w +:+ errors.Error e +:+ http.newline
     | (policy, None) =>
       http.Code (snd (fst (handlers.GetPolicy req (s, w)))) = http.StatusOK
       /\ http.HeaderMap (snd (fst (handlers.GetPolicy req (s, w)))) !! "Content-Type"
            = Some "application/json"
       /\ http.Body (snd (fst (handlers.GetPolicy req (s, w))))
            = http.Body w
              +:+ match policy with
                  | Some p => json.encode (models.policy_to_json p)
                  | None => "null"
                  end
              +:+ http.newline
     end.
Proof.
  intros Hw.
  unfold handlers.GetPolicy, handlers.on_writer, handlers.on_service, GetPolicy, on_repo.
  unfold mbind, State_bind.
  destruct (repository.GetPolicy (http.req_Context req) "epm-policies" "some_policy_id"
              (repo s)) as [r [policy [e|]]]; cbn [fst snd].
  - destruct (Error_effect (errors.Error e) http.StatusNotFound w Hw) as [Hc Hb].
    destruct (http.Error _ _ w) as [w' []]. cbn in *. auto.
  - unfold handlers.Encode, http.Header_Set, http.Write, http.WriteHeader.
    cbn. rewrite Hw. cbn. split; [reflexivity |]. split; [reflexivity |].
    split; [apply lookup_insert_eq |].
    destruct policy; reflexivity.
Qed.

End EPMHandler.

(** * Properties of the book service *)

Section Bookshop.
Import bookshop.

(** X24. Whenever the query for the ISBN of a request fails, for whatever
    reason, the route /book/{isbn} of the main package answers exactly
    as the handler GetBookHandler does for that request, whatever book
    retriever the handler was built with: status 404 and the JSON error
    with code 001 naming the ISBN. *)
Theorem get_book_agrees_with_GetBookHandler
    (B : Type) (HB : handler.BookRetriever B) (br : B)
    (db : main.DB) (req : http.Request) (w : http.ResponseRecorder) (e : error) :
  snd (main.QueryRow_Scan db (http.URLParam req "isbn")) = Some e ->
  main.get_book db req w = handler.ServeHTTP (handler.NewGetBook br) req w
  /\ (http.wroteHeader w = false ->
      http.Code (fst (main.get_book db req w)) = http.StatusNotFound
      /\ http.Body (fst (main.get_book db req w)) =
           http.Body w
           +:+ json.encode
                 (json.object
                    [ ("code", json.str "001");
                      ("message",
                       json.str ("no book with ISBN " +:+ http.URLParam req "isbn")) ])).
Proof.
  intros Hq. unfold main.get_book, handler.ServeHTTP.
  destruct (main.QueryRow_Scan db (http.URLParam req "isbn")) as [book err].
  cbn in Hq. subst err. split; [reflexivity |].
  intros Hw. unfold http.Write, http.WriteHeader, Marshal_jsonError. run_state.
  rewrite Hw. cbn. split; reflexivity.
Qed.

(** X25. The route /book/{isbn} answers 200 exactly when the query for the
    ISBN succeeds, and then the body is the JSON of the book scanned;
    every failure of the query, not only a missing row, is answered
    404. *)
Theorem get_book_status
    (db : main.DB) (req : http.Request) (w : http.ResponseRecorder) :
  http.wroteHeader w = false ->
  http.Code (fst (main.get_book db req w)) =
    match snd (main.QueryRow_Scan db (http.URLParam req "isbn")) with
    | None => http.StatusOK
    | Some _ => http.StatusNotFound
    end
  /\ (http.Code (fst (main.get_book db req w)) = http.StatusOK
      <-> snd (main.QueryRow_Scan db (http.URLParam req "isbn")) = None)
  /\ (snd (main.QueryRow_Scan db (http.URLParam req "isbn")) = None ->
      http.Body (fst (main.get_book db req w)) =
        http.Body w
        +:+ Marshal_Book (fst (main.QueryRow_Scan db (http.URLParam req "isbn")))).
Proof.
  intros Hw. unfold main.get_book.
  destruct (main.QueryRow_Scan db (http.URLParam req "isbn")) as [book [e|]];
    unfold http.Write, http.WriteHeader; run_state; rewrite Hw; cbn.
  - split; [reflexivity |]. split; [split; intros Habs; discriminate Habs |].
    intros Habs; discriminate Habs.
  - split; [reflexivity |]. split; [split; reflexivity |]. reflexivity.
Qed.

End Bookshop.

(** * The further statements with hypotheses, at concrete inputs *)

Section FurtherWitnesses.
Import dynamodb scenario.

Lemma publish_outcome_is_recorded_witness :
  kafka_go.written
    (kafka.Writer
       (users.service.kafka
          (fst (users.service.perform context_TODO (users.service.Delete "missing")
                  (user_service no_faults "ID" broker_down))))) = []
  /\ users.service.stderr
       (fst (users.service.perform context_TODO (users.service.Delete "missing")
               (user_service no_faults "ID" broker_down)))
     = [ "Failed to publish message: dial tcp: connection refused" ].
Proof.
  exact (publish_outcome_is_recorded (H := dynamo_users) context_TODO
           (users.service.Delete "missing") (user_service no_faults "ID" broker_down)
           (users.service.repo (user_service no_faults "ID" broker_down))
           ltac:(vm_compute; reflexivity)).
Defined.

Lemma key_mismatch_blocks_reads_and_deletes_witness :
  (exists e,
     users.repository.Dynamo.GetUser users.models.UnmarshalMap context_TODO "1"
       {| users.repository.db := one_table no_faults "Users" "id" |}
     = ({| users.repository.db := one_table no_faults "Users" "id" |}, (None, Some e)))
  /\ (exists e,
        users.repository.Dynamo.DeleteUser context_TODO "1"
          {| users.repository.db := one_table no_faults "Users" "id" |}
        = ({| users.repository.db := one_table no_faults "Users" "id" |}, Some e)).
Proof.
  exact (key_mismatch_blocks_reads_and_deletes users.models.UnmarshalMap context_TODO "1"
           {| users.repository.db := one_table no_faults "Users" "id" |}
           (empty_table "id")
           ltac:(vm_compute; reflexivity) ltac:(discriminate)).
Defined.

Lemma CreateUser_upserts_on_id_table_witness :
  exists t',
    snd (users.repository.Dynamo.CreateUser context_TODO ann
           {| users.repository.db := one_table no_faults "Users" "id" |}) = None
    /\ tables (users.repository.db
                 (fst (users.repository.Dynamo.CreateUser context_TODO ann
                         {| users.repository.db := one_table no_faults "Users" "id" |})))
         !! users.repository.Users = Some t'
    /\ KeySchema t' = "id"
    /\ Items t' !! "1" = Some (fst (users.models.MarshalMap ann))
    /\ (forall k, k <> "1" -> Items t' !! k = Items (empty_table "id") !! k)
    /\ (forall name, name <> users.repository.Users ->
          tables (users.repository.db
                    (fst (users.repository.Dynamo.CreateUser context_TODO ann
                            {| users.repository.db := one_table no_faults "Users" "id" |})))
            !! name
          = tables (one_table no_faults "Users" "id") !! name).
Proof.
  exact (CreateUser_upserts_on_id_table context_TODO ann
           {| users.repository.db := one_table no_faults "Users" "id" |}
           (empty_table "id")
           ltac:(vm_compute; reflexivity) ltac:(reflexivity) ltac:(reflexivity)).
Defined.

Lemma GetUser_not_found_iff_absent_witness :
  (Items ann_table !! "2" = None <->
   snd (users.repository.Dynamo.GetUser users.models.UnmarshalMap context_TODO "2"
          {| users.repository.db := users_with_ann |})
     = (None, Some (errors.New "user not found")))
  /\ (forall item, Items ann_table !! "2" = Some item ->
        snd (users.repository.Dynamo.GetUser users.models.UnmarshalMap context_TODO "2"
               {| users.repository.db := users_with_ann |})
          = (Some (fst (users.models.UnmarshalMap item)),
             snd (users.models.UnmarshalMap item))).
Proof.
  exact (GetUser_not_found_iff_absent users.models.UnmarshalMap context_TODO "2"
           {| users.repository.db := users_with_ann |} ann_table
           ltac:(vm_compute; reflexivity) ltac:(reflexivity) ltac:(reflexivity)).
Defined.

Lemma DeleteUser_keeps_other_users_witness :
  snd (users.repository.Dynamo.DeleteUser context_TODO "2"
         {| users.repository.db := users_with_ann |}) = None
  /\ snd (users.repository.Dynamo.GetUser users.models.UnmarshalMap context_TODO "1"
            (fst (users.repository.Dynamo.DeleteUser context_TODO "2"
                    {| users.repository.db := users_with_ann |})))
       = snd (users.repository.Dynamo.GetUser users.models.UnmarshalMap context_TODO "1"
                {| users.repository.db := users_with_ann |}).
Proof.
  exact (DeleteUser_keeps_other_users users.models.UnmarshalMap
           context_TODO context_TODO "2" "1"
           {| users.repository.db := users_with_ann |} ann_table
           ltac:(vm_compute; reflexivity) ltac:(reflexivity) ltac:(reflexivity)
           ltac:(reflexivity) ltac:(discriminate)).
Defined.

Lemma store_error_is_returned_as_is_witness :
  users.repository.Dynamo.CreateUser context_TODO ann
    {| users.repository.db := one_table unreachable "Users" "id" |}
    = ({| users.repository.db := one_table unreachable "Users" "id" |},
       Some (errors.awserr "RequestError" "send request failed"))
  /\ users.repository.Dynamo.UpdateUser context_TODO ann
       {| users.repository.db := one_table unreachable "Users" "id" |}
       = ({| users.repository.db := one_table unreachable "Users" "id" |},
          Some (errors.awserr "RequestError" "send request failed"))
  /\ users.repository.Dynamo.DeleteUser context_TODO "1"
       {| users.repository.db := one_table unreachable "Users" "id" |}
       = ({| users.repository.db := one_table unreachable "Users" "id" |},
          Some (errors.awserr "RequestError" "send request failed"))
  /\ users.repository.Dynamo.GetUser users.models.UnmarshalMap context_TODO "1"
       {| users.repository.db := one_table unreachable "Users" "id" |}
       = ({| users.repository.db := one_table unreachable "Users" "id" |},
          (None, Some (errors.awserr "RequestError" "send request failed"))).
Proof.
  exact (store_error_is_returned_as_is users.models.UnmarshalMap context_TODO
           (errors.awserr "RequestError" "send request failed") ann "1"
           {| users.repository.db := one_table unreachable "Users" "id" |}
           (fun req => eq_refl)).
Defined.

Lemma SavePolicy_then_GetPolicy_witness :
  snd (epm.repository.Dynamo.SavePolicy context_TODO "EPMPolicies" admin
         {| epm.repository.dynamoClient := one_table no_faults "EPMPolicies" "id" |})
    = None
  /\ snd (epm.repository.Dynamo.GetPolicy epm.models.UnmarshalMap_policy context_TODO
            "EPMPolicies" "1"
            (fst (epm.repository.Dynamo.SavePolicy context_TODO "EPMPolicies" admin
                    {| epm.repository.dynamoClient :=
                         one_table no_faults "EPMPolicies" "id" |})))
       = (Some admin, None).
Proof.
  exact (SavePolicy_then_GetPolicy epm.models.UnmarshalMap_policy
           context_TODO context_TODO "EPMPolicies" admin
           {| epm.repository.dynamoClient := one_table no_faults "EPMPolicies" "id" |}
           (empty_table "id")
           ltac:(vm_compute; reflexivity) ltac:(reflexivity) ltac:(discriminate)
           ltac:(reflexivity) ltac:(reflexivity) ltac:(vm_compute; reflexivity)).
Defined.

Lemma SaveAudit_then_GetAudit_witness :
  snd (epm.repository.Dynamo.SaveAudit context_TODO "EPMAudits" audit1
         {| epm.repository.dynamoClient := one_table no_faults "EPMAudits" "id" |})
    = None
  /\ snd (epm.repository.Dynamo.GetAudit epm.models.UnmarshalMap_audit context_TODO
            "EPMAudits" "a1"
            (fst (epm.repository.Dynamo.SaveAudit context_TODO "EPMAudits" audit1
                    {| epm.repository.dynamoClient :=
                         one_table no_faults "EPMAudits" "id" |})))
       = (Some audit1, None).
Proof.
  exact (SaveAudit_then_GetAudit epm.models.UnmarshalMap_audit
           context_TODO context_TODO "EPMAudits" audit1
           {| epm.repository.dynamoClient := one_table no_faults "EPMAudits" "id" |}
           (empty_table "id")
           ltac:(vm_compute; reflexivity) ltac:(reflexivity) ltac:(discriminate)
           ltac:(reflexivity) ltac:(reflexivity) ltac:(vm_compute; reflexivity)).
Defined.

Lemma GetPolicy_not_found_iff_absent_witness :
  Items (empty_table "id") !! "some_policy_id" = None <->
  snd (epm.repository.Dynamo.GetPolicy epm.models.UnmarshalMap_policy context_TODO
         "epm-policies" "some_policy_id"
         {| epm.repository.dynamoClient := one_table no_faults "epm-policies" "id" |})
    = (None, Some (errors.New "policy with ID some_policy_id not found")).
Proof.
  exact (GetPolicy_not_found_iff_absent epm.models.UnmarshalMap_policy context_TODO
           "epm-policies" "some_policy_id"
           {| epm.repository.dynamoClient := one_table no_faults "epm-policies" "id" |}
           (empty_table "id")
           ltac:(vm_compute; reflexivity) ltac:(reflexivity) ltac:(reflexivity)).
Defined.

Lemma SavePolicy_keeps_other_policies_witness :
  snd (epm.repository.Dynamo.GetPolicy epm.models.UnmarshalMap_policy context_TODO
         "EPMPolicies" "1"
         (fst (epm.repository.Dynamo.SavePolicy context_TODO "EPMPolicies" nameless
                 {| epm.repository.dynamoClient :=
                      one_row no_faults "EPMPolicies" "id" "1"
                        (fst (epm.models.MarshalMap_policy admin)) |})))
    = snd (epm.repository.Dynamo.GetPolicy epm.models.UnmarshalMap_policy context_TODO
             "EPMPolicies" "1"
             {| epm.repository.dynamoClient :=
                  one_row no_faults "EPMPolicies" "id" "1"
                    (fst (epm.models.MarshalMap_policy admin)) |}).
Proof.
  exact (SavePolicy_keeps_other_policies epm.models.UnmarshalMap_policy
           context_TODO context_TODO "EPMPolicies" "EPMPolicies" nameless "1"
           {| epm.repository.dynamoClient :=
                one_row no_faults "EPMPolicies" "id" "1"
                  (fst (epm.models.MarshalMap_policy admin)) |}
           ltac:(right; cbn; discriminate)).
Defined.

Lemma SavePolicy_rejects_empty_ID_witness :
  epm.repository.Dynamo.SavePolicy context_TODO "EPMPolicies" nameless
    {| epm.repository.dynamoClient := one_table no_faults "EPMPolicies" "id" |}
  = ({| epm.repository.dynamoClient := one_table no_faults "EPMPolicies" "id" |},
     Some (errors.Errorf "failed to save policy to DynamoDB: " MissingKeyException)).
Proof.
  exact (SavePolicy_rejects_empty_ID context_TODO "EPMPolicies" nameless
           {| epm.repository.dynamoClient := one_table no_faults "EPMPolicies" "id" |}
           (empty_table "id")
           ltac:(vm_compute; reflexivity) ltac:(reflexivity) ltac:(reflexivity)
           ltac:(reflexivity)).
Defined.

Lemma store_error_is_wrapped_witness :
  epm.repository.Dynamo.SavePolicy context_TODO "EPMPolicies" admin
    {| epm.repository.dynamoClient := one_table unreachable "EPMPolicies" "id" |}
    = ({| epm.repository.dynamoClient := one_table unreachable "EPMPolicies" "id" |},
       Some (errors.Errorf "failed to save policy to DynamoDB: "
               (errors.awserr "RequestError" "send request failed")))
  /\ epm.repository.Dynamo.SaveAudit context_TODO "EPMPolicies" audit1
       {| epm.repository.dynamoClient := one_table unreachable "EPMPolicies" "id" |}
       = ({| epm.repository.dynamoClient := one_table unreachable "EPMPolicies" "id" |},
          Some (errors.Errorf "failed to save audit to DynamoDB: "
                  (errors.awserr "RequestError" "send request failed")))
  /\ epm.repository.Dynamo.GetPolicy epm.models.UnmarshalMap_policy context_TODO
       "EPMPolicies" "1"
       {| epm.repository.dynamoClient := one_table unreachable "EPMPolicies" "id" |}
       = ({| epm.repository.dynamoClient := one_table unreachable "EPMPolicies" "id" |},
          (None,
           Some (errors.Errorf "failed to get policy from DynamoDB: "
                   (errors.awserr "RequestError" "send request failed"))))
  /\ epm.repository.Dynamo.GetAudit epm.models.UnmarshalMap_audit context_TODO
       "EPMPolicies" "1"
       {| epm.repository.dynamoClient := one_table unreachable "EPMPolicies" "id" |}
       = ({| epm.repository.dynamoClient := one_table unreachable "EPMPolicies" "id" |},
          (None,
           Some (errors.Errorf "failed to get audit from DynamoDB: "
                   (errors.awserr "RequestError" "send request failed"))))
  /\ errors.Error
       (errors.Errorf "failed to save policy to DynamoDB: "
          (errors.awserr "RequestError" "send request failed"))
     = "failed to save policy to DynamoDB: RequestError: send request failed".
Proof.
  exact (store_error_is_wrapped epm.models.UnmarshalMap_policy
           epm.models.UnmarshalMap_audit context_TODO
           (errors.awserr "RequestError" "send request failed") "EPMPolicies" "1"
           admin audit1
           {| epm.repository.dynamoClient := one_table unreachable "EPMPolicies" "id" |}
           (fun req => eq_refl)).
Defined.

Lemma CreatePolicy_commit_error_witness :
  epm.service.CreatePolicy context_TODO "EPMPolicies" admin
    (epm_service unreachable "EPMPolicies" "id" broker_up)
  = (epm_service unreachable "EPMPolicies" "id" broker_up,
     Some (errors.Errorf "failed to save policy to DynamoDB: "
             (errors.awserr "RequestError" "send request failed"))).
Proof.
  exact (CreatePolicy_commit_error (H := dynamo_epm) context_TODO "EPMPolicies" admin
           (epm_service unreachable "EPMPolicies" "id" broker_up)
           (epm.service.repo (epm_service unreachable "EPMPolicies" "id" broker_up))
           (errors.Errorf "failed to save policy to DynamoDB: "
              (errors.awserr "RequestError" "send request failed"))
           ltac:(reflexivity)).
Defined.

Lemma CreatePolicy_publish_outcome_witness :
  snd (epm.service.CreatePolicy context_TODO "EPMPolicies" admin
         (epm_service no_faults "EPMPolicies" "id" broker_down)) = None
  /\ epm.service.repo
       (fst (epm.service.CreatePolicy context_TODO "EPMPolicies" admin
               (epm_service no_faults "EPMPolicies" "id" broker_down)))
     = {| epm.repository.dynamoClient :=
            one_row no_faults "EPMPolicies" "id" "1"
              (fst (epm.models.MarshalMap_policy admin)) |}
  /\ kafka_go.written
       (kafka.Writer
          (epm.service.kafka
             (fst (epm.service.CreatePolicy context_TODO "EPMPolicies" admin
                     (epm_service no_faults "EPMPolicies" "id" broker_down))))) = []
  /\ epm.service.stderr
       (fst (epm.service.CreatePolicy context_TODO "EPMPolicies" admin
               (epm_service no_faults "EPMPolicies" "id" broker_down)))
     = [ "Failed to publish message: dial tcp: connection refused";
         "Failed to publish Kafka event: dial tcp: connection refused" ].
Proof.
  exact (CreatePolicy_publish_outcome (H := dynamo_epm) context_TODO "EPMPolicies" admin
           (epm_service no_faults "EPMPolicies" "id" broker_down)
           {| epm.repository.dynamoClient :=
                one_row no_faults "EPMPolicies" "id" "1"
                  (fst (epm.models.MarshalMap_policy admin)) |}
           ltac:(vm_compute; reflexivity)).
Defined.

Lemma CreateUser_status_witness :
  http.Code
    (snd (fst (users.handlers.CreateUser decode_ann
                 (post (json.encode (users.models.to_json ann)))
                 (user_service no_faults "id" broker_down, http.NewRecorder))))
  = http.StatusCreated.
Proof.
  exact (CreateUser_status (H := dynamo_users) decode_ann
           (post (json.encode (users.models.to_json ann)))
           (user_service no_faults "id" broker_down) http.NewRecorder
           ltac:(reflexivity)).
Defined.

Lemma CreateUser_bad_request_witness :
  fst (fst (users.handlers.CreateUser decode_ann (post "{")
              (user_service no_faults "id" broker_up, http.NewRecorder)))
    = user_service no_faults "id" broker_up
  /\ http.Code
       (snd (fst (users.handlers.CreateUser decode_ann (post "{")
                    (user_service no_faults "id" broker_up, http.NewRecorder))))
     = http.StatusBadRequest
  /\ http.Body
       (snd (fst (users.handlers.CreateUser decode_ann (post "{")
                    (user_service no_faults "id" broker_up, http.NewRecorder))))
     = "unexpected end of JSON input" +:+ http.newline.
Proof.
  exact (CreateUser_bad_request (H := dynamo_users) decode_ann (post "{")
           (user_service no_faults "id" broker_up) http.NewRecorder
           (errors.New "unexpected end of JSON input")
           ltac:(reflexivity) ltac:(reflexivity)).
Defined.

Lemma CreateUser_repository_error_witness :
  fst (fst (users.handlers.CreateUser decode_ann
              (post (json.encode (users.models.to_json ann)))
              (user_service unreachable "id" broker_up, http.NewRecorder)))
    = user_service unreachable "id" broker_up
  /\ http.Code
       (snd (fst (users.handlers.CreateUser decode_ann
                    (post (json.encode (users.models.to_json ann)))
                    (user_service unreachable "id" broker_up, http.NewRecorder))))
     = http.StatusInternalServerError
  /\ http.Body
       (snd (fst (users.handlers.CreateUser decode_ann
                    (post (json.encode (users.models.to_json ann)))
                    (user_service unreachable "id" broker_up, http.NewRecorder))))
     = "RequestError: send request failed" +:+ http.newline.
Proof.
  exact (CreateUser_repository_error (H := dynamo_users) decode_ann
           (post (json.encode (users.models.to_json ann)))
           (user_service unreachable "id" broker_up) http.NewRecorder ann
           (users.service.repo (user_service unreachable "id" broker_up))
           (errors.awserr "RequestError" "send request failed")
           ltac:(vm_compute; reflexivity) ltac:(reflexivity) ltac:(reflexivity)).
Defined.

Lemma CreateUser_created_witness :
  http.Code
    (snd (fst (users.handlers.CreateUser decode_ann
                 (post (json.encode (users.models.to_json ann)))
                 (user_service no_faults "id" broker_down, http.NewRecorder))))
    = http.StatusCreated
  /\ http.Body
       (snd (fst (users.handlers.CreateUser decode_ann
                    (post (json.encode (users.models.to_json ann)))
                    (user_service no_faults "id" broker_down, http.NewRecorder))))
     = EmptyString
  /\ users.service.repo
       (fst (fst (users.handlers.CreateUser decode_ann
                    (post (json.encode (users.models.to_json ann)))
                    (user_service no_faults "id" broker_down, http.NewRecorder))))
     = {| users.repository.db :=
            one_row no_faults "Users" "id" "1" (fst (users.models.MarshalMap ann)) |}
  /\ users.service.published
       (fst (fst (users.handlers.CreateUser decode_ann
                    (post (json.encode (users.models.to_json ann)))
                    (user_service no_faults "id" broker_down, http.NewRecorder))))
     = [ {| kafka_go.Key := "create_user";
            kafka_go.Value := json.encode (users.models.to_json ann) |} ].
Proof.
  exact (CreateUser_created (H := dynamo_users) decode_ann
           (post (json.encode (users.models.to_json ann)))
           (user_service no_faults "id" broker_down) http.NewRecorder ann
           {| users.repository.db :=
                one_row no_faults "Users" "id" "1" (fst (users.models.MarshalMap ann)) |}
           ltac:(vm_compute; reflexivity) ltac:(vm_compute; reflexivity)
           ltac:(reflexivity)).
Defined.

Lemma GetPolicy_answers_witness :
  http.Code
    (snd (fst (epm.handlers.GetPolicy (get_isbn EmptyString)
                 (epm_service no_faults "epm-policies" "id" broker_up, http.NewRecorder))))
    = http.StatusNotFound
  /\ http.Body
       (snd (fst (epm.handlers.GetPolicy (get_isbn EmptyString)
                    (epm_service no_faults "epm-policies" "id" broker_up,
                     http.NewRecorder))))
     = "policy with ID some_policy_id not found" +:+ http.newline.
Proof.
  exact (proj2 (GetPolicy_answers (H := dynamo_epm) (get_isbn EmptyString)
                  (epm_service no_faults "epm-policies" "id" broker_up) http.NewRecorder
                  ltac:(reflexivity))).
Defined.

Lemma get_book_agrees_with_GetBookHandler_witness :
  bookshop.main.get_book one_book (get_isbn "123456789") http.NewRecorder
    = bookshop.handler.ServeHTTP (bookshop.handler.NewGetBook the_shelf)
        (get_isbn "123456789") http.NewRecorder
  /\ (http.wroteHeader http.NewRecorder = false ->
      http.Code (fst (bookshop.main.get_book one_book (get_isbn "123456789")
                        http.NewRecorder)) = http.StatusNotFound
      /\ http.Body (fst (bookshop.main.get_book one_book (get_isbn "123456789")
                           http.NewRecorder))
         = http.Body http.NewRecorder
           +:+ json.encode
                 (json.object
                    [ ("code", json.str "001");
                      ("message",
                       json.str ("no book with ISBN "
                                 +:+ http.URLParam (get_isbn "123456789") "isbn")) ])).
Proof.
  assert (Hq : snd (bookshop.main.QueryRow_Scan one_book
                      (http.URLParam (get_isbn "123456789") "isbn"))
               = Some (errors.New "sql: no rows in result set"))
    by (vm_compute; reflexivity).
  exact (get_book_agrees_with_GetBookHandler (gmap string bookshop.Book) shelf the_shelf
           one_book (get_isbn "123456789") http.NewRecorder
           (errors.New "sql: no rows in result set") Hq).
Defined.

Lemma get_book_status_witness :
  http.Code (fst (bookshop.main.get_book one_book (get_isbn "123456789")
                    http.NewRecorder)) =
    match snd (bookshop.main.QueryRow_Scan one_book
                 (http.URLParam (get_isbn "123456789") "isbn")) with
    | None => http.StatusOK
    | Some _ => http.StatusNotFound
    end
  /\ (http.Code (fst (bookshop.main.get_book one_book (get_isbn "123456789")
                        http.NewRecorder)) = http.StatusOK
      <-> snd (bookshop.main.QueryRow_Scan one_book
                 (http.URLParam (get_isbn "123456789") "isbn")) = None)
  /\ (snd (bookshop.main.QueryRow_Scan one_book
             (http.URLParam (get_isbn "123456789") "isbn")) = None ->
      http.Body (fst (bookshop.main.get_book one_book (get_isbn "123456789")
                        http.NewRecorder))
      = http.Body http.NewRecorder
        +:+ bookshop.Marshal_Book
              (fst (bookshop.main.QueryRow_Scan one_book
                      (http.URLParam (get_isbn "123456789") "isbn")))).
Proof.
  exact (get_book_status one_book (get_isbn "123456789") http.NewRecorder
           ltac:(reflexivity)).
Defined.

End FurtherWitnesses.

(** * Deleting where users are stored *)

Section DeleteWhereStored.
Import dynamodb scenario.
Import users users.repository.
Variable UnmarshalMap : Item -> User * option error.

(** Whatever the Users table, its key and the faults of the store: once
    CreateUser has stored a user, no DeleteUser, of whatever id, can
    succeed on the resulting store; it returns an error and leaves the
    store as it was. *)
Lemma DeleteUser_after_CreateUser_fails
    (ctx ctx' : Context) (user : User) (id : string) (r : DynamoUserRepository) :
  snd (Dynamo.CreateUser ctx user r) = None ->
  exists e,
    Dynamo.DeleteUser ctx' id (fst (Dynamo.CreateUser ctx user r))
      = (fst (Dynamo.CreateUser ctx user r), Some e).
Proof.
  intros Hok.
  destruct (CreateUser_outcome ctx user r) as [[e He] | (t & k & Ht & Hk & _ & He)];
    rewrite He in Hok |- *; cbn [fst snd] in Hok |- *; [discriminate Hok |].
  unfold Dynamo.DeleteUser, with_db, DeleteItemWithContext, store. cbn.
  destruct (faults (db r) ctx' _); [eexists; reflexivity |].
  rewrite lookup_insert_eq.
  rewrite (row_of_key_not_ID
             (mkTable (KeySchema t) (<[ k := fst (models.MarshalMap user) ]> (Items t)))
             id Hk).
  eexists; reflexivity.
Qed.

(** C8, at a user. On a reachable Users table keyed by id, the layout on
    which CreateUser stores users: CreateUser of Ann stores her item
    under row 1; DeleteUser of 1 then returns a validation error and
    changes nothing, and so does a second DeleteUser; the row is still
    there; and GetUser of 1 returns the same validation error, not "user
    not found". *)
Theorem DeleteUser_fails_where_users_are_stored :
  Dynamo.CreateUser context_TODO ann {| db := one_table no_faults "Users" "id" |}
    = ({| db := one_row no_faults "Users" "id" "1" (fst (models.MarshalMap ann)) |}, None)
  /\ Dynamo.DeleteUser context_TODO "1"
       {| db := one_row no_faults "Users" "id" "1" (fst (models.MarshalMap ann)) |}
     = ({| db := one_row no_faults "Users" "id" "1" (fst (models.MarshalMap ann)) |},
        Some ValidationException)
  /\ Dynamo.DeleteUser context_TODO "1"
       (fst (Dynamo.DeleteUser context_TODO "1"
               {| db := one_row no_faults "Users" "id" "1"
                          (fst (models.MarshalMap ann)) |}))
     = ({| db := one_row no_faults "Users" "id" "1" (fst (models.MarshalMap ann)) |},
        Some ValidationException)
  /\ (tables (one_row no_faults "Users" "id" "1" (fst (models.MarshalMap ann))) !! "Users"
        ≫= fun t => Items t !! "1")
     = Some (fst (models.MarshalMap ann))
  /\ Dynamo.GetUser UnmarshalMap context_TODO "1"
       {| db := one_row no_faults "Users" "id" "1" (fst (models.MarshalMap ann)) |}
     = ({| db := one_row no_faults "Users" "id" "1" (fst (models.MarshalMap ann)) |},
        (None, Some ValidationException))
  /\ ValidationException <> errors.New "user not found".
Proof.
  repeat split; try (vm_compute; reflexivity). discriminate.
Qed.

End DeleteWhereStored.

(** * LogAudit against CreatePolicy *)

Section LogAudit.
Import dynamodb scenario.
Import epm epm.repository.

(** A SaveAudit that returns nil has stored the item of the audit under
    the row its key attribute names. *)
Lemma SaveAudit_success (ctx : Context) (tableName : string) (audit : EPMAudit)
    (r : DynamoDBRepo) :
  snd (Dynamo.SaveAudit ctx tableName audit r) = None ->
  exists t k,
    tables (dynamoClient r) !! tableName = Some t
    /\ row_of_item t (fst (models.MarshalMap_audit audit)) = Some k
    /\ fst (Dynamo.SaveAudit ctx tableName audit r) =
         {| dynamoClient :=
              store tableName t
                (<[ k := fst (models.MarshalMap_audit audit) ]> (Items t))
                (dynamoClient r) |}.
Proof.
  destruct r as [d].
  unfold Dynamo.SaveAudit, with_client, PutItemWithContext. run_state.
  destruct (faults d ctx _) as [e|]; [intros Habs; discriminate Habs |].
  destruct (tables d !! tableName) as [t|] eqn:Ht; [| intros Habs; discriminate Habs].
  destruct (row_of_item t _) as [k|] eqn:Hrow; [| intros Habs; discriminate Habs].
  intros _. exists t, k. repeat split; assumption || reflexivity.
Qed.

(** On a reachable table keyed by id, SaveAudit of an audit with a
    non-empty ID returns nil. *)
Lemma SaveAudit_succeeds (ctx : Context) (tableName : string) (audit : EPMAudit)
    (r : DynamoDBRepo) (t : Table) :
  tables (dynamoClient r) !! tableName = Some t ->
  KeySchema t = "id" ->
  models.audit_ID audit <> EmptyString ->
  faults (dynamoClient r) ctx
    (PutItem {| put_Item := fst (models.MarshalMap_audit audit);
                put_TableName := tableName |}) = None ->
  Dynamo.SaveAudit ctx tableName audit r =
    ({| dynamoClient :=
          store tableName t
            (<[ models.audit_ID audit := fst (models.MarshalMap_audit audit) ]> (Items t))
            (dynamoClient r) |}, None).
Proof.
  intros Ht Hk Hid Hf. destruct r as [d]. cbn in Ht, Hf.
  pose proof (MarshalMap_audit_id audit) as Hattr.
  rewrite decide_False in Hattr by exact Hid.
  cbn [models.MarshalMap_audit fst] in Hattr, Hf.
  unfold Dynamo.SaveAudit, with_client, PutItemWithContext, row_of_item. run_state.
  rewrite Hf, Ht, Hk, Hattr. reflexivity.
Qed.

(** C10. LogAudit commits the audit and never publishes; CreatePolicy
    publishes after its commit.
    - For any repository, LogAudit is the repository's SaveAudit and
      nothing else: the producer, the list of messages handed to the
      writer and the log are untouched, whether SaveAudit succeeds or
      fails.
    - For the DynamoDB repository, whenever LogAudit returns nil the
      item of the audit is in the table named, under the row its key
      attribute names, and nothing was handed to the writer.
    - On a reachable table keyed by id, for an audit with a non-empty
      ID, LogAudit does return nil, and the row of that ID then holds
      the item of the audit.
    - CreatePolicy, after a SavePolicy that returned nil, has handed
      the writer one message with key create_policy and the JSON of the
      policy. *)
Theorem LogAudit_commits_without_publishing :
  (forall (R : Type) (H : DynamoDBRepository R) (ctx : Context) (tableName : string)
          (audit : EPMAudit) (s : service.EPMService R),
      service.repo (fst (service.LogAudit ctx tableName audit s))
        = fst (SaveAudit ctx tableName audit (service.repo s))
      /\ snd (service.LogAudit ctx tableName audit s)
           = snd (SaveAudit ctx tableName audit (service.repo s))
      /\ service.kafka (fst (service.LogAudit ctx tableName audit s)) = service.kafka s
      /\ service.published (fst (service.LogAudit ctx tableName audit s))
           = service.published s
      /\ service.stderr (fst (service.LogAudit ctx tableName audit s)) = service.stderr s)
  /\ (forall (UnmarshalMap_policy : Item -> EPMPolicy * option error)
             (UnmarshalMap_audit : Item -> EPMAudit * option error)
             (ctx : Context) (tableName : string) (audit : EPMAudit)
             (s : service.EPMService DynamoDBRepo),
        snd (service.LogAudit
               (H := DynamoDBRepo_impl UnmarshalMap_policy UnmarshalMap_audit)
               ctx tableName audit s) = None ->
        exists t k,
          tables (dynamoClient (service.repo s)) !! tableName = Some t
          /\ row_of_item t (fst (models.MarshalMap_audit audit)) = Some k
          /\ (tables (dynamoClient
                        (service.repo
                           (fst (service.LogAudit
                                   (H := DynamoDBRepo_impl UnmarshalMap_policy
                                           UnmarshalMap_audit)
                                   ctx tableName audit s)))) !! tableName
                ≫= fun t' => Items t' !! k)
             = Some (fst (models.MarshalMap_audit audit))
          /\ service.published
               (fst (service.LogAudit
                       (H := DynamoDBRepo_impl UnmarshalMap_policy UnmarshalMap_audit)
                       ctx tableName audit s))
             = service.published s)
  /\ (forall (UnmarshalMap_policy : Item -> EPMPolicy * option error)
             (UnmarshalMap_audit : Item -> EPMAudit * option error)
             (ctx : Context) (tableName : string) (audit : EPMAudit)
             (s : service.EPMService DynamoDBRepo) (t : Table),
        tables (dynamoClient (service.repo s)) !! tableName = Some t ->
        KeySchema t = "id" ->
        models.audit_ID audit <> EmptyString ->
        faults (dynamoClient (service.repo s)) ctx
          (PutItem {| put_Item := fst (models.MarshalMap_audit audit);
                      put_TableName := tableName |}) = None ->
        snd (service.LogAudit
               (H := DynamoDBRepo_impl UnmarshalMap_policy UnmarshalMap_audit)
               ctx tableName audit s) = None
        /\ (tables (dynamoClient
                      (service.repo
                         (fst (service.LogAudit
                                 (H := DynamoDBRepo_impl UnmarshalMap_policy
                                         UnmarshalMap_audit)
                                 ctx tableName audit s)))) !! tableName
              ≫= fun t' => Items t' !! models.audit_ID audit)
           = Some (fst (models.MarshalMap_audit audit)))
  /\ (forall (R : Type) (H : DynamoDBRepository R) (ctx : Context) (tableName : string)
             (policy : EPMPolicy) (s : service.EPMService R) (r : R),
        SavePolicy ctx tableName policy (service.repo s) = (r, None) ->
        service.published (fst (service.CreatePolicy ctx tableName policy s)) =
          (service.published s ++
           [ {| kafka_go.Key := "create_policy";
                kafka_go.Value := json.encode (models.policy_to_json policy) |} ])%list).
Proof.
  split; [| split; [| split]].
  - intros R H ctx tableName audit s. rewrite LogAudit_is_SaveAudit. cbn. auto.
  - intros decp deca ctx tableName audit s Hok.
    rewrite LogAudit_is_SaveAudit in Hok |- *. cbn [fst snd service.repo] in Hok |- *.
    change (SaveAudit ctx tableName audit (service.repo s))
      with (Dynamo.SaveAudit ctx tableName audit (service.repo s)) in Hok |- *.
    destruct (SaveAudit_success ctx tableName audit (service.repo s) Hok)
      as (t & k & Ht & Hrow & Hst).
    exists t, k. rewrite Hst. cbn. rewrite !lookup_insert_eq. cbn.
    rewrite lookup_insert_eq. auto.
  - intros decp deca ctx tableName audit s t Ht Hk Hid Hf.
    rewrite LogAudit_is_SaveAudit. cbn [fst snd service.repo].
    change (SaveAudit ctx tableName audit (service.repo s))
      with (Dynamo.SaveAudit ctx tableName audit (service.repo s)).
    rewrite (SaveAudit_succeeds ctx tableName audit (service.repo s) t Ht Hk Hid Hf).
    cbn. rewrite !lookup_insert_eq. cbn. rewrite lookup_insert_eq. auto.
  - intros R H ctx tableName policy s r Hc.
    rewrite (CreatePolicy_committed ctx tableName policy s r Hc).
    exact (proj1 (epm_publishEvent_published "create_policy" policy
                    (service.mkService r (service.kafka s) (service.stderr s)))).
Qed.

Lemma LogAudit_commits_without_publishing_witness :
  (snd (service.LogAudit
          (H := DynamoDBRepo_impl models.UnmarshalMap_policy models.UnmarshalMap_audit)
          context_TODO "EPMAudits" audit1
          (epm_service no_faults "EPMAudits" "id" broker_up)) = None
   /\ (tables (dynamoClient
                 (service.repo
                    (fst (service.LogAudit
                            (H := DynamoDBRepo_impl models.UnmarshalMap_policy
                                    models.UnmarshalMap_audit)
                            context_TODO "EPMAudits" audit1
                            (epm_service no_faults "EPMAudits" "id" broker_up)))))
         !! "EPMAudits"
         ≫= fun t' => Items t' !! models.audit_ID audit1)
      = Some (fst (models.MarshalMap_audit audit1)))
  /\ service.published
       (fst (service.CreatePolicy (H := dynamo_epm) context_TODO "EPMPolicies" admin
               (epm_service no_faults "EPMPolicies" "id" broker_up)))
     = (service.published (epm_service no_faults "EPMPolicies" "id" broker_up) ++
        [ {| kafka_go.Key := "create_policy";
             kafka_go.Value := json.encode (models.policy_to_json admin) |} ])%list.
Proof.
  split.
  - exact (proj1 (proj2 (proj2 LogAudit_commits_without_publishing))
             models.UnmarshalMap_policy models.UnmarshalMap_audit
             context_TODO "EPMAudits" audit1
             (epm_service no_faults "EPMAudits" "id" broker_up) (empty_table "id")
             ltac:(vm_compute; reflexivity) ltac:(reflexivity) ltac:(discriminate)
             ltac:(reflexivity)).
  - exact (proj2 (proj2 (proj2 LogAudit_commits_without_publishing))
             DynamoDBRepo dynamo_epm context_TODO "EPMPolicies" admin
             (epm_service no_faults "EPMPolicies" "id" broker_up)
             {| dynamoClient :=
                  one_row no_faults "EPMPolicies" "id" "1"
                    (fst (models.MarshalMap_policy admin)) |}
             ltac:(vm_compute; reflexivity)).
Defined.

End LogAudit.
